(** * drf_addons_plus.filters: ConditionalFilter and FieldsFilter

    A shallow embedding of [src/drf_addons_plus/filters.py].

    Python values are modelled by the types the code manipulates: [str] as
    [string] (a sequence of ASCII code points), lists and tuples of strings
    as [list string], [None]-or-value attributes as [option], exceptions as
    the [Raise] branch of [result].  The host framework (Django's ORM and
    REST framework's field validation and term splitting) is not code of
    this repository: it enters as the interface [Host], and every theorem
    holds for every implementation of that interface. *)

From Stdlib Require Import String Ascii List Bool Arith Lia.
Import ListNotations.
Open Scope string_scope.

Set Implicit Arguments.

(** ** Exceptions and the error monad *)

Inductive Exc : Type :=
| IndexError
| TypeError
| AssertionError
| ImproperlyConfigured (msg : string)
| HostError (what : string).

Inductive result (A : Type) : Type :=
| Ok (a : A)
| Raise (e : Exc).

Arguments Ok {A} a.
Arguments Raise {A} e.

Definition bind {A B} (m : result A) (k : A -> result B) : result B :=
  match m with
  | Ok a => k a
  | Raise e => Raise e
  end.

Notation "x <- m ;; k" := (bind m (fun x => k))
  (at level 61, m at next level, right associativity).

(** ** Python string primitives used by the source *)

Module Py.

(** [s.startswith(p)] *)
Definition startswith (p s : string) : bool := String.prefix p s.

(** [s[1:]]: the empty string stays empty. *)
Definition tail (s : string) : string :=
  match s with
  | EmptyString => EmptyString
  | String _ r => r
  end.

(** [s[0]]: raises [IndexError] on the empty string. *)
Definition head (s : string) : result ascii :=
  match s with
  | EmptyString => Raise IndexError
  | String c _ => Ok c
  end.

(** [x in l] for a list of strings. *)
Definition mem (x : string) (l : list string) : bool :=
  existsb (String.eqb x) l.

(** Whitespace removed by [str.strip()] (ASCII range). *)
Definition is_space (c : ascii) : bool :=
  let n := nat_of_ascii c in
  (((9 <=? n) && (n <=? 13)) || ((28 <=? n) && (n <=? 32)))%nat.

Fixpoint lstrip (s : string) : string :=
  match s with
  | EmptyString => EmptyString
  | String c r => if is_space c then lstrip r else s
  end.

Fixpoint rev_string (s acc : string) : string :=
  match s with
  | EmptyString => acc
  | String c r => rev_string r (String c acc)
  end.

Definition rstrip (s : string) : string :=
  rev_string (lstrip (rev_string s EmptyString)) EmptyString.

(** [s.strip()] *)
Definition strip (s : string) : string := rstrip (lstrip s).

(** [s.split(sep)] for a non-empty separator: occurrences are found left
    to right and do not overlap.  [skip] counts the characters of a
    separator still to be jumped over, [cur] is the current piece,
    reversed. *)
Fixpoint split_go (sep : string) (skip : nat) (cur : string) (s : string)
  : list string :=
  match s with
  | EmptyString => [rev_string cur EmptyString]
  | String c r =>
      match skip with
      | S k => split_go sep k cur r
      | O =>
          if String.prefix sep s
          then rev_string cur EmptyString
                 :: split_go sep (String.length sep - 1) EmptyString r
          else split_go sep O (String c cur) r
      end
  end.

Definition split (sep s : string) : list string :=
  split_go sep 0 EmptyString s.

(** [sep.join(l)] *)
Fixpoint join (sep : string) (l : list string) : string :=
  match l with
  | [] => EmptyString
  | [x] => x
  | x :: r => x ++ sep ++ join sep r
  end.

(** [s.replace(old, new)] for a one-character [old]. *)
Fixpoint replace_char (old : ascii) (new : string) (s : string) : string :=
  match s with
  | EmptyString => EmptyString
  | String c r =>
      if Ascii.eqb c old then new ++ replace_char old new r
      else String c (replace_char old new r)
  end.

Definition is_upper (c : ascii) : bool :=
  let n := nat_of_ascii c in ((65 <=? n) && (n <=? 90))%nat.
Definition is_lower (c : ascii) : bool :=
  let n := nat_of_ascii c in ((97 <=? n) && (n <=? 122))%nat.
Definition to_upper (c : ascii) : ascii :=
  if is_lower c then ascii_of_nat (nat_of_ascii c - 32) else c.
Definition to_lower (c : ascii) : ascii :=
  if is_upper c then ascii_of_nat (nat_of_ascii c + 32) else c.

(** [s.title()]: a letter that follows a letter is lowered, any other
    letter is raised. *)
Fixpoint title_go (prev_cased : bool) (s : string) : string :=
  match s with
  | EmptyString => EmptyString
  | String c r =>
      let cased := is_upper c || is_lower c in
      String (if prev_cased then to_lower c else to_upper c)
             (title_go cased r)
  end.

Definition title (s : string) : string := title_go false s.

(** [reduce(op, l)] without an initial value: [TypeError] on the empty
    sequence. *)
Definition reduce {A} (op : A -> A -> A) (l : list A) : result A :=
  match l with
  | [] => Raise TypeError
  | x :: r => Ok (fold_left op r x)
  end.

(** Truthiness of an optional string ([None] and [''] are falsy). *)
Definition truthy_str (o : option string) : bool :=
  match o with
  | Some (String _ _) => true
  | _ => false
  end.

End Py.

(** ** Data handed to and received from the host framework *)

(** A value bound to a lookup keyword. *)
Inductive PyVal : Type :=
| VBool (b : bool)
| VStr (s : string).

(** The single child of a freshly built [models.Q]: a [Q] built from the
    keyword argument [key=value] stores the pair [(key, value)], a [Q] built
    from the positional argument [{key: value}] stores that dict itself. *)
Inductive Child : Type :=
| Kw (key : string) (value : PyVal)
| Pos (d : list (string * PyVal)).

(** The predicate expression tree built with [operator.and_] and
    [operator.or_] over non-empty [Q] objects. *)
Inductive Q : Type :=
| QLeaf (c : Child)
| QAnd (a b : Q)
| QOr (a b : Q).

(** A display label: [None], a string, or the list that
    [key.title().split('__')] produces for an annotation. *)
Inductive Label : Type :=
| LNone
| LStr (s : string)
| LParts (l : list string).

(** [request.query_params]: the pairs of the query string, in order. *)
Record Request : Type := { query_params : list (string * string) }.

(** [QueryDict.get(key)]: the last value given for [key], if any. *)
Fixpoint qp_get (qp : list (string * string)) (key : string) : option string :=
  match qp with
  | [] => None
  | (k, v) :: r =>
      match qp_get r key with
      | Some v' => Some v'
      | None => if String.eqb k key then Some v else None
      end
  end.

(** The context dict given to a serializer: [{}] or [{'request': request}]. *)
Definition Context : Type := option Request.

(** A bound serializer field. [write_only] is read with
    [getattr(field, 'write_only', False)]. *)
Record SerializerField : Type := {
  source : string;
  label : Label;
  write_only : option bool }.

(** [serializer_class(context=context).fields.items()], for serializers
    whose construction and field binding return normally. *)
Record SerializerClass : Type := {
  fields_items : Context -> list (string * SerializerField) }.

(** An entry of an explicit allow-list: a name, or a (name, label) pair. *)
Inductive Item : Type :=
| IStr (s : string)
| IPair (name : string) (lbl : Label).

(** The value of a [conditional_fields] attribute. *)
Inductive CondFields : Type :=
| CF_None
| CF_Str (s : string)
| CF_Seq (items : list Item).

(** The value of a view's [conditional] attribute when it is not [None]. *)
Inductive CondDefault : Type :=
| CD_Str (s : string)
| CD_Seq (l : list string).

(** The attributes of the view that the filters read.  [None] stands for
    an attribute that is missing, and for [conditional], [serializer_class]
    and [filter_fields] also for one that is [None]. [get_serializer_class]
    holds what a call of the method does. *)
Record View : Type := {
  view_conditional_fields : option CondFields;
  view_conditional : option CondDefault;
  view_get_serializer_class : option (result (option SerializerClass));
  view_serializer_class : option SerializerClass;
  view_filter_fields : option (list string) }.

(** The host ORM and REST framework, as far as the filters call them. *)
Class Host : Type := {
  QuerySet : Type;
  Opts : Type;
  Field : Type;
  (** [queryset.filter(q)] *)
  qs_filter : QuerySet -> Q -> result QuerySet;
  (** [queryset.model._meta] *)
  qs_meta : QuerySet -> Opts;
  (** [dir(queryset.model)], each name with
      [isinstance(getattr(model_class, attr), property)] *)
  qs_model_dir : QuerySet -> list (string * bool);
  (** the keys of [queryset.query.annotations] *)
  qs_annotations : QuerySet -> list string;
  (** [(field.name, field.verbose_name)] over [opts.fields] *)
  meta_fields : Opts -> list (string * Label);
  (** [opts.get_field(name)]; [None] is [FieldDoesNotExist] *)
  get_field : Opts -> string -> option Field;
  (** [opts.pk.name] *)
  pk_name : Opts -> string;
  (** truth value of [field.get_lookup(name)] *)
  get_lookup : Field -> string -> bool;
  (** [to_opts] of each entry of [field.path_infos], when the attribute
      exists *)
  path_infos : Field -> option (list Opts);
  (** [CharField(trim_whitespace=False, allow_blank=True).run_validation] *)
  run_validation : string -> result string;
  (** [rest_framework.filters.search_smart_split] *)
  search_smart_split : string -> list string }.

(** [x or y] on strings. *)
Definition or_str (x y : string) : string :=
  match x with
  | EmptyString => y
  | _ => x
  end.

(** The characters of a string, as iterating over a [str] yields them. *)
Fixpoint chars (s : string) : list string :=
  match s with
  | EmptyString => []
  | String c r => String c EmptyString :: chars r
  end.

(** [django.db.models.constants.LOOKUP_SEP] *)
Definition LOOKUP_SEP : string := "__".

(** ** ConditionalFilter *)

Module ConditionalFilter.

(** The class attributes that the modelled methods read from [self]. *)
Record Self : Type := {
  class_name : string;
  conditional_param : string;
  conditional_fields : CondFields }.

(** [ConditionalFilter] itself. *)
Definition default_self : Self :=
  {| class_name := "ConditionalFilter";
     conditional_param := "conditional";
     conditional_fields := CF_None |}.

Definition get_default_conditional (view : View) : option (list string) :=
  match view_conditional view with
  | Some (CD_Str s) => Some [s]
  | Some (CD_Seq l) => Some l
  | None => None
  end.

Definition improperly_configured_msg (cls : string) : string :=
  "Cannot use " ++ cls ++ " on a view which does not have either a "
  ++ "'serializer_class', an overriding 'get_serializer_class' "
  ++ "or 'conditional_fields' attribute.".

(** The serializer class found on the view; [AssertionError] from
    [get_serializer_class] is caught, any other exception propagates. *)
Definition find_serializer_class (view : View)
  : result (option SerializerClass) :=
  match view_get_serializer_class view with
  | Some (Ok sc) => Ok sc
  | Some (Raise AssertionError) => Ok None
  | Some (Raise e) => Raise e
  | None => Ok (view_serializer_class view)
  end.

(** [[param.strip() for param in params.split(',')]] *)
Definition tokens_of (params : string) : list string :=
  map Py.strip (Py.split "," params).

(** [getattr(view, 'conditional_fields', self.conditional_fields)] *)
Definition configured_fields (self : Self) (view : View) : CondFields :=
  match view_conditional_fields view with
  | Some v => v
  | None => conditional_fields self
  end.

(** [field.source.replace('.', '__') or field_name] *)
Definition valid_name (field_name : string) (field : SerializerField)
  : string :=
  or_str (Py.replace_char "." "__" (source field)) field_name.

Section WithHost.
Context {H : Host}.

Definition model_property_names (queryset : QuerySet) : list string :=
  map fst
    (filter (fun a => snd a && negb (String.eqb (fst a) "pk"))
       (qs_model_dir queryset)).

(** The [if] clause of the comprehension in
    [get_default_valid_fields]. *)
Definition field_kept (props : list string) (field : SerializerField)
  : bool :=
  negb (match write_only field with Some b => b | None => false end)
  && negb (String.eqb (source field) "*")
  && negb (Py.mem (source field) props).

Definition get_default_valid_fields (self : Self) (queryset : QuerySet)
  (view : View) (context : Context) : result (list (string * Label)) :=
  serializer_class <- find_serializer_class view ;;
  match serializer_class with
  | None =>
      Raise (ImproperlyConfigured
               (improperly_configured_msg (class_name self)))
  | Some sc =>
      let props := model_property_names queryset in
      Ok (map (fun nf =>
                 (valid_name (fst nf) (snd nf), label (snd nf)))
            (filter (fun nf => field_kept props (snd nf))
               (fields_items sc context)))
  end.

Definition get_valid_fields (self : Self) (queryset : QuerySet)
  (view : View) (context : Context) : result (list (string * Label)) :=
  let valid_fields := configured_fields self view in
  match valid_fields with
  | CF_None => get_default_valid_fields self queryset view context
  | CF_Str s =>
      if String.eqb s "__all__" then
        Ok (meta_fields (qs_meta queryset)
            ++ map (fun key =>
                      (key, LParts (Py.split "__" (Py.title key))))
                 (qs_annotations queryset))%list
      else
        Ok (map (fun c => (c, LStr c)) (chars s))
  | CF_Seq items =>
      Ok (map (fun item =>
                 match item with
                 | IStr s => (s, LStr s)
                 | IPair n l => (n, l)
                 end) items)
  end.

Definition term_valid (valid_fields : list string) (term : string)
  : bool :=
  let term := if Py.startswith "-" term then Py.tail term else term in
  Py.mem term valid_fields.

Definition remove_invalid_fields (self : Self) (queryset : QuerySet)
  (fields : list string) (view : View) (request : Request)
  : result (list string) :=
  vf <- get_valid_fields self queryset view (Some request) ;;
  let valid_fields := map fst vf in
  Ok (filter (term_valid valid_fields) fields).

Definition get_conditional (self : Self) (request : Request)
  (queryset : QuerySet) (view : View) : result (option (list string)) :=
  let params := qp_get (query_params request) (conditional_param self) in
  match params with
  | Some ((String _ _) as p) =>
      let fields := tokens_of p in
      conditional <- remove_invalid_fields self queryset fields view
                       request ;;
      match conditional with
      | _ :: _ => Ok (Some conditional)
      | [] => Ok (get_default_conditional view)
      end
  | _ => Ok (get_default_conditional view)
  end.

(** The body of the [for condition in conditional] loop. *)
Definition condition_Q (condition : string) : result Q :=
  c0 <- Py.head condition ;;
  if Ascii.eqb c0 "-" then
    Ok (QLeaf (Kw (Py.tail condition ++ "__exact") (VBool false)))
  else
    Ok (QLeaf (Kw (condition ++ "__exact") (VBool true))).

Fixpoint conditions_loop (conditional : list string) (conditions : list Q)
  : result (list Q) :=
  match conditional with
  | [] => Ok conditions
  | condition :: rest =>
      q <- condition_Q condition ;;
      conditions_loop rest (conditions ++ [q])%list
  end.

(** The conjunction built from a non-empty [conditional]. *)
Definition build_predicate (conditional : list string) : result Q :=
  conditions <- conditions_loop conditional [] ;;
  Py.reduce QAnd conditions.

(** [filter_queryset] from [if conditional:] on. *)
Definition apply_conditional (queryset : QuerySet)
  (conditional : option (list string)) : result QuerySet :=
  match conditional with
  | Some ((_ :: _) as tokens) =>
      q <- build_predicate tokens ;;
      qs_filter queryset q
  | _ => Ok queryset
  end.

Definition filter_queryset (self : Self) (request : Request)
  (queryset : QuerySet) (view : View) : result QuerySet :=
  conditional <- get_conditional self request queryset view ;;
  apply_conditional queryset conditional.

End WithHost.

End ConditionalFilter.

(** ** FieldsFilter *)

Module FieldsFilter.

(** The class attribute [lookup_prefixes]. *)
Definition lookup_prefixes : list (ascii * string) :=
  [ ("^"%char, "istartswith");
    ("="%char, "iexact");
    ("@"%char, "search");
    ("$"%char, "iregex") ].

(** [lookup_prefixes.get(c)] *)
Fixpoint prefix_get (d : list (ascii * string)) (c : ascii)
  : option string :=
  match d with
  | [] => None
  | (k, v) :: r => if Ascii.eqb k c then Some v else prefix_get r c
  end.

Definition get_search_fields (view : View) (request : Request)
  : option (list string) :=
  view_filter_fields view.

(** The predicate built for one lookup and one term: the dict
    [{orm_lookup: term}] is the positional argument of [models.Q]. *)
Definition search_leaf (orm_lookup term : string) : Q :=
  QLeaf (Pos [(orm_lookup, VStr term)]).

(** Running a fallible body over a list, left to right. *)
Fixpoint mapM {A B} (f : A -> result B) (l : list A) : result (list B) :=
  match l with
  | [] => Ok []
  | x :: r => y <- f x ;; ys <- mapM f r ;; Ok (y :: ys)
  end.

Fixpoint foldM {A B} (f : A -> B -> result A) (a : A) (l : list B)
  : result A :=
  match l with
  | [] => Ok a
  | x :: r => a' <- f a x ;; foldM f a' r
  end.

Section WithHost.
Context {H : Host}.

Definition get_search_terms (request : Request) (field_param : string)
  : result (list string) :=
  let value :=
    match qp_get (query_params request) field_param with
    | Some v => v
    | None => ""
    end in
  cleaned_value <- run_validation value ;;
  Ok (search_smart_split cleaned_value).

(** The [for path_part in lookup_fields] loop of [construct_search].
    [Ok true] is the early [return field_name]; [Ok false] is the loop
    running to its end. *)
Fixpoint follow (opts : Opts) (prev_field : option Field)
  (lookup_fields : list string) : result bool :=
  match lookup_fields with
  | [] => Ok false
  | path_part :: rest =>
      let path_part :=
        if String.eqb path_part "pk" then pk_name opts else path_part in
      match get_field opts path_part with
      | None =>
          if match prev_field with
             | Some f => get_lookup f path_part
             | None => false
             end
          then Ok true
          else follow opts prev_field rest
      | Some field =>
          match path_infos field with
          | Some infos =>
              match rev infos with
              | to_opts :: _ => follow to_opts (Some field) rest
              | [] => Raise IndexError
              end
          | None => follow opts (Some field) rest
          end
      end
  end.

Definition construct_search (field_name : string) (queryset : QuerySet)
  : result string :=
  c0 <- Py.head field_name ;;
  match prefix_get lookup_prefixes c0 with
  | Some ((String _ _) as lookup) =>
      Ok (Py.join LOOKUP_SEP [Py.tail field_name; lookup])
  | _ =>
      returned <- follow (qs_meta queryset) None
                    (Py.split LOOKUP_SEP field_name) ;;
      if returned then Ok field_name
      else Ok (Py.join LOOKUP_SEP [field_name; "icontains"])
  end.

(** The predicate handed to [queryset.filter] for one field: the
    conjunction over the terms of the disjunction over [orm_lookups]. *)
Definition field_predicate (orm_lookups terms : list string) : result Q :=
  conditions <- mapM (fun term =>
                        Py.reduce QOr
                          (map (fun orm_lookup =>
                                  search_leaf orm_lookup term)
                             orm_lookups))
                  terms ;;
  Py.reduce QAnd conditions.

(** The body of the [for field in search_fields] loop.  Its [print] call
    writes to standard output and has no part in the result. *)
Definition filter_field (request : Request) (queryset : QuerySet)
  (field : string) : result QuerySet :=
  search_terms <- get_search_terms request field ;;
  match search_terms with
  | [] => Ok queryset
  | _ :: _ =>
      orm_lookup <- construct_search field queryset ;;
      let orm_lookups := [orm_lookup] in
      q <- field_predicate orm_lookups search_terms ;;
      qs_filter queryset q
  end.

Definition filter_queryset (request : Request) (queryset : QuerySet)
  (view : View) : result QuerySet :=
  match get_search_fields view request with
  | Some ((_ :: _) as search_fields) =>
      foldM (filter_field request) queryset search_fields
  | _ => Ok queryset
  end.

End WithHost.

End FieldsFilter.

(** ** What a predicate tree means on a row *)

Section Meaning.
Variable Row : Type.
(** The host's reading of one child on one row. *)
Variable child_holds : Child -> Row -> bool.

Fixpoint Q_holds (q : Q) (row : Row) : bool :=
  match q with
  | QLeaf c => child_holds c row
  | QAnd a b => Q_holds a row && Q_holds b row
  | QOr a b => Q_holds a row || Q_holds b row
  end.
End Meaning.

(** ** A small host to run the filters on

    A queryset is the list of predicates handed to [filter] so far; models
    are numbered, model 0 (books) follows [author] to model 1 (authors).
    Terms are split at spaces, without the quoting rules of the real
    splitter. *)

Module Sample.

Record SField : Type := {
  sf_lookups : list string;
  sf_path : option (list nat) }.

Definition char_field : SField :=
  {| sf_lookups := ["exact"; "iexact"; "icontains"; "istartswith"];
     sf_path := None |}.

Definition bool_field : SField :=
  {| sf_lookups := ["exact"]; sf_path := None |}.

Definition schema (model : nat) : list (string * SField) :=
  match model with
  | 0 => [ ("id", bool_field); ("name", char_field); ("code", char_field);
           ("active", bool_field); ("verified", bool_field);
           ("author", {| sf_lookups := ["exact"]; sf_path := Some [1] |}) ]
  | 1 => [ ("id", bool_field); ("name", char_field) ]
  | _ => []
  end.

Fixpoint assoc {A} (l : list (string * A)) (k : string) : option A :=
  match l with
  | [] => None
  | (k', v) :: r => if String.eqb k' k then Some v else assoc r k
  end.

Fixpoint words_go (cur : string) (s : string) : list string :=
  let flush := match cur with
               | EmptyString => []
               | _ => [Py.rev_string cur EmptyString]
               end in
  match s with
  | EmptyString => flush
  | String c r =>
      if Py.is_space c then (flush ++ words_go EmptyString r)%list
      else words_go (String c cur) r
  end.

Definition words (s : string) : list string := words_go EmptyString s.

#[local] Instance host : Host := {|
  QuerySet := list Q;
  Opts := nat;
  Field := SField;
  qs_filter := fun qs q => Ok (qs ++ [q])%list;
  qs_meta := fun _ => 0;
  qs_model_dir := fun _ =>
    [("clean", false); ("full_name", true); ("pk", true); ("save", false)];
  qs_annotations := fun _ => ["book_count__max"];
  meta_fields := fun m => map (fun nf => (fst nf, LStr (fst nf))) (schema m);
  get_field := fun m n => assoc (schema m) n;
  pk_name := fun _ => "id";
  get_lookup := fun f n => Py.mem n (sf_lookups f);
  path_infos := sf_path;
  run_validation := fun s => Ok s;
  search_smart_split := words |}.

(** Rows as column values, and a reading of keyword lookups on them. *)
Definition Row : Type := list (string * PyVal).

Fixpoint contains (needle hay : string) : bool :=
  String.prefix needle hay
  || match hay with
     | EmptyString => false
     | String _ r => contains needle r
     end.

Fixpoint lower (s : string) : string :=
  match s with
  | EmptyString => EmptyString
  | String c r => String (Py.to_lower c) (lower r)
  end.

Definition kw_holds (key : string) (value : PyVal) (row : Row) : bool :=
  let parts := Py.split LOOKUP_SEP key in
  match assoc row (hd "" parts), value with
  | Some (VBool b), VBool v =>
      String.eqb (last parts "") "exact" && Bool.eqb b v
  | Some (VStr s), VStr v =>
      let lk := last parts "" in
      if String.eqb lk "exact" then String.eqb s v
      else if String.eqb lk "iexact" then String.eqb (lower s) (lower v)
      else if String.eqb lk "icontains" then contains (lower v) (lower s)
      else if String.eqb lk "istartswith"
           then String.prefix (lower v) (lower s)
      else false
  | _, _ => false
  end.

Definition child_holds (c : Child) (row : Row) : bool :=
  match c with
  | Kw key value => kw_holds key value row
  | Pos d => forallb (fun kv => kw_holds (fst kv) (snd kv) row) d
  end.

(** The rows of a table that a queryset selects. *)
Definition rows_of (table : list Row) (qs : list Q) : list Row :=
  filter (fun row => forallb (fun q => Q_holds child_holds q row) qs) table.

(** A row that matches neither foo nor bar. *)
Definition zzz_row : Row := [("name", VStr "zzz"); ("code", VStr "zzz")].

Definition request_of (qp : list (string * string)) : Request :=
  {| query_params := qp |}.

(** The request of the specification's conditional example, and the
    permitted fields of [flags_view] below. *)
Definition flags_request : Request :=
  request_of [("conditional", "active,-verified,bogus")].
Definition flags_vf : list (string * Label) :=
  [("active", LStr "active"); ("verified", LStr "verified")].

(** Requests for the search filter: the specification's example, one
    parameter per configured field, and a blank parameter. *)
Definition search_request : Request :=
  request_of [("search", "foo bar")].
Definition fields_request : Request :=
  request_of [("name", "foo bar"); ("^code", "x")].
Definition blank_request : Request :=
  request_of [("name", "   "); ("^code", "x")].

(** A view that only declares an allow-list of conditional fields. *)
Definition flags_view : View :=
  {| view_conditional_fields :=
       Some (CF_Seq [IStr "active"; IStr "verified"]);
     view_conditional := None;
     view_get_serializer_class := None;
     view_serializer_class := None;
     view_filter_fields := None |}.

(** A view that only declares search fields. *)
Definition search_view : View :=
  {| view_conditional_fields := None;
     view_conditional := None;
     view_get_serializer_class := None;
     view_serializer_class := None;
     view_filter_fields := Some ["name"; "^code"] |}.

(** A view with nothing configured. *)
Definition bare_view : View :=
  {| view_conditional_fields := None;
     view_conditional := None;
     view_get_serializer_class := None;
     view_serializer_class := None;
     view_filter_fields := None |}.

Definition plain_field (src : string) : SerializerField :=
  {| source := src; label := LStr src; write_only := Some false |}.



End Sample.

(** ** The vocabulary of the specification

    Definitions that follow the words of the specification, to be compared
    with what the code computes. *)

Module Spec.

(** A token stripped of one leading negation marker. *)
Definition strip_negation (token : string) : string :=
  match token with
  | String "-" name => name
  | _ => token
  end.

(** A token is permitted when its stripped name is a permitted field. *)
Definition permitted (names : list string) (token : string) : bool :=
  Py.mem (strip_negation token) names.

(** The predicate: the named field equals [b]. *)
Definition field_equals (name : string) (b : bool) : Q :=
  QLeaf (Kw (name ++ "__exact") (VBool b)).

(** What one token contributes. *)
Definition token_predicate (token : string) : Q :=
  match token with
  | String "-" name => field_equals name false
  | _ => field_equals token true
  end.

(** The conjunction of a first predicate and the following ones. *)
Definition all_of (q : Q) (qs : list Q) : Q := fold_left QAnd qs q.

(** A lookup applied to a term, as a keyword predicate. *)
Definition matches (orm_lookup term : string) : Q :=
  QLeaf (Kw orm_lookup (VStr term)).

(** The message contains the class name. *)
Definition names_class (msg cls : string) : Prop :=
  exists before after, msg = before ++ cls ++ after.

(** The search predicate of the specification's example:
    (name icontains t OR code istartswith t) for t in foo, bar,
    joined by AND. *)
Definition example_search_predicate : Q :=
  QAnd (QOr (matches "name__icontains" "foo")
            (matches "code__istartswith" "foo"))
       (QOr (matches "name__icontains" "bar")
            (matches "code__istartswith" "bar")).


(** The tokens of the default conditional that the view declares: a
    string is one token; nothing declared is no token. *)
Definition declared_default (view : View) : list string :=
  match view_conditional view with
  | Some (CD_Str s) => [s]
  | Some (CD_Seq l) => l
  | None => []
  end.



End Spec.

(** ** FieldsFilter.must_call_distinct *)

Module Distinct.

(** What [must_call_distinct] asks of the host beyond [Host]. *)
Class PathHost {H : Host} : Type := {
  (** [isinstance(queryset, models.QuerySet)] *)
  is_queryset : QuerySet -> bool;
  (** [field.get_path_info()] when the field has that method: for each
      entry its [to_opts] and its [m2m] flag *)
  get_path_info : Field -> option (list (Opts * bool)) }.

(** [c in self.lookup_prefixes] *)
Definition in_prefixes (c : ascii) : bool :=
  match FieldsFilter.prefix_get FieldsFilter.lookup_prefixes c with
  | Some _ => true
  | None => false
  end.

Section WithHost.
Context {H : Host} {P : PathHost}.

(** The [for part in parts] loop.  [Ok true] is [return True]; [Ok false]
    is the loop ending, by exhaustion or by [break].  A part that is not a
    field raises [FieldDoesNotExist], which nothing catches. *)
Fixpoint distinct_parts (opts : Opts) (parts : list string) : result bool :=
  match parts with
  | [] => Ok false
  | part :: rest =>
      match get_field opts part with
      | None => Raise (HostError "FieldDoesNotExist")
      | Some field =>
          match get_path_info field with
          | Some path_info =>
              match rev path_info with
              | [] => Raise IndexError
              | (to_opts, _) :: _ =>
                  if existsb snd path_info then Ok true
                  else distinct_parts to_opts rest
              end
          | None => Ok false
          end
      end
  end.

(** The [print(parts)] call writes to standard output and has no part in
    the result. *)
Fixpoint must_call_distinct (queryset : QuerySet)
  (search_fields : list string) : result bool :=
  match search_fields with
  | [] => Ok false
  | search_field :: rest =>
      c0 <- Py.head search_field ;;
      let search_field :=
        if in_prefixes c0 then Py.tail search_field else search_field in
      if is_queryset queryset
         && Py.mem search_field (qs_annotations queryset)
      then must_call_distinct queryset rest
      else
        found <- distinct_parts (qs_meta queryset)
                   (Py.split LOOKUP_SEP search_field) ;;
        if found then Ok true else must_call_distinct queryset rest
  end.

End WithHost.

End Distinct.

(** ** get_schema_operation_parameters *)

Module Schema.

(** One entry of the list that [get_schema_operation_parameters] returns;
    [op_schema_type] is the ['type'] of the nested ['schema'] dict. *)
Record OperationParameter : Type := {
  op_name : string;
  op_required : bool;
  op_in : string;
  op_description : string;
  op_schema_type : string }.

(** The class attributes of [FieldsFilter] that its schema reads;
    [search_param] is [api_settings.SEARCH_PARAM]. *)
Record SearchSelf : Type := {
  search_param : string;
  search_description : string }.

Section WithLocale.
(** [django.utils.encoding.force_str] on a translatable text. *)
Variable force_str : string -> string.

(** [ConditionalFilter.get_schema_operation_parameters] *)
Definition conditional_operation_parameters
  (self : ConditionalFilter.Self) (conditional_description : string)
  (view : View) : list OperationParameter :=
  [ {| op_name := ConditionalFilter.conditional_param self;
       op_required := false;
       op_in := "query";
       op_description := force_str conditional_description;
       op_schema_type := "string" |} ].

(** [FieldsFilter.get_schema_operation_parameters] *)
Definition search_operation_parameters (self : SearchSelf) (view : View)
  : list OperationParameter :=
  [ {| op_name := search_param self;
       op_required := false;
       op_in := "query";
       op_description := force_str (search_description self);
       op_schema_type := "string" |} ].

End WithLocale.

End Schema.

(** ** Vocabulary for the further properties *)

Module Shape.

(** The children of a predicate tree, left to right. *)
Fixpoint leaves (q : Q) : list Child :=
  match q with
  | QLeaf c => [c]
  | QAnd a b => (leaves a ++ leaves b)%list
  | QOr a b => (leaves a ++ leaves b)%list
  end.

(** No disjunction occurs in the tree. *)
Fixpoint and_only (q : Q) : bool :=
  match q with
  | QLeaf _ => true
  | QAnd a b => and_only a && and_only b
  | QOr _ _ => false
  end.

(** The child that a conditional token contributes. *)
Definition token_child (token : string) : Child :=
  match token with
  | String "-" name => Kw (name ++ "__exact") (VBool false)
  | _ => Kw (token ++ "__exact") (VBool true)
  end.

(** A request with one more parameter at the end of its query string. *)
Definition with_param (request : Request) (key value : string) : Request :=
  {| query_params := (query_params request ++ [(key, value)])%list |}.

(** The characters of a string. *)
Definition chars_of (s : string) : list ascii := list_ascii_of_string s.


End Shape.

(** ** More of the sample host *)

Module SampleMore.

(** Paths into model 1 (authors) are many-to-many. *)
Definition sample_get_path_info (f : Sample.SField)
  : option (list (nat * bool)) :=
  match Sample.sf_path f with
  | Some os => Some (map (fun o => (o, Nat.eqb o 1)) os)
  | None => None
  end.

#[local] Instance paths : @Distinct.PathHost Sample.host :=
  @Distinct.Build_PathHost Sample.host (fun _ => true) sample_get_path_info.

(** The same relations, none of them many-to-many. *)
Definition plain_get_path_info (f : Sample.SField)
  : option (list (nat * bool)) :=
  match Sample.sf_path f with
  | Some os => Some (map (fun o => (o, false)) os)
  | None => None
  end.

Definition plain_paths : @Distinct.PathHost Sample.host :=
  @Distinct.Build_PathHost Sample.host (fun _ => true) plain_get_path_info.

(** A view whose default conditional is a single string, with no
    allow-list and no serializer. *)
Definition default_only_view : View :=
  {| view_conditional_fields := None;
     view_conditional := Some (CD_Str "active");
     view_get_serializer_class := None;
     view_serializer_class := None;
     view_filter_fields := None |}.

(** A view whose default conditional holds an empty token. *)
Definition empty_default_view : View :=
  {| view_conditional_fields := Some (CF_Seq [IStr "active"]);
     view_conditional := Some (CD_Seq ["active"; ""]);
     view_get_serializer_class := None;
     view_serializer_class := None;
     view_filter_fields := None |}.

(** A view with an allow-list and a default conditional of two tokens. *)
Definition default_flags_view : View :=
  {| view_conditional_fields :=
       Some (CF_Seq [IStr "active"; IStr "verified"]);
     view_conditional := Some (CD_Seq ["-verified"; "active"]);
     view_get_serializer_class := None;
     view_serializer_class := None;
     view_filter_fields := None |}.

(** A filter subclass that declares an allow-list of its own, and a view
    whose [conditional_fields] attribute is [None]. *)
Definition flags_self : ConditionalFilter.Self :=
  {| ConditionalFilter.class_name := "FlagsFilter";
     ConditionalFilter.conditional_param := "conditional";
     ConditionalFilter.conditional_fields := CF_Seq [IStr "active"] |}.

Definition none_fields_view : View :=
  {| view_conditional_fields := Some CF_None;
     view_conditional := None;
     view_get_serializer_class := None;
     view_serializer_class := None;
     view_filter_fields := None |}.

(** A view whose allow-list is a string where a tuple was meant. *)
Definition string_list_view : View :=
  {| view_conditional_fields := Some (CF_Str "active");
     view_conditional := None;
     view_get_serializer_class := None;
     view_serializer_class := None;
     view_filter_fields := None |}.

(** A view whose [get_serializer_class] fails with an exception of its
    own. *)
Definition failing_serializer_view : View :=
  {| view_conditional_fields := None;
     view_conditional := None;
     view_get_serializer_class := Some (Raise (HostError "KeyError"));
     view_serializer_class := None;
     view_filter_fields := None |}.

Definition fields_view (search_fields : list string) : View :=
  {| view_conditional_fields := None;
     view_conditional := None;
     view_get_serializer_class := None;
     view_serializer_class := None;
     view_filter_fields := Some search_fields |}.

(** A serializer with one field read from [pk]. *)
Definition pk_serializer : SerializerClass :=
  {| fields_items := fun _ => [("id", Sample.plain_field "pk")] |}.

Definition pk_view : View :=
  {| view_conditional_fields := None;
     view_conditional := None;
     view_get_serializer_class := None;
     view_serializer_class := Some pk_serializer;
     view_filter_fields := None |}.

Definition search_self : Schema.SearchSelf :=
  {| Schema.search_param := "search";
     Schema.search_description := "A search term." |}.

End SampleMore.

(** * Properties *)

Example split_commas :
  Py.split "," "active,-verified,bogus" = ["active"; "-verified"; "bogus"].
Proof. reflexivity. Qed.

Example split_empty_segments : Py.split "," "a,, b ," = ["a"; ""; " b "; ""].
Proof. reflexivity. Qed.

Example split_lookup_sep :
  Py.split "__" "author__name__iexact" = ["author"; "name"; "iexact"].
Proof. reflexivity. Qed.

Example split_overlap : Py.split "__" "a___b" = ["a"; "_b"].
Proof. reflexivity. Qed.

Example strip_both : Py.strip "  -verified " = "-verified".
Proof. reflexivity. Qed.

Example title_annotation : Py.title "total_count__max" = "Total_Count__Max".
Proof. reflexivity. Qed.

Example words_split : Sample.words "  foo   bar " = ["foo"; "bar"].
Proof. reflexivity. Qed.

Example words_blank : Sample.words "   " = [].
Proof. reflexivity. Qed.

(** ** Strings and the error monad *)

Lemma ascii_dash_cases (c : ascii) : c = "-"%char \/ Ascii.eqb c "-" = false.
Proof.
  destruct (Ascii.eqb c "-") eqn:E; [left | right; reflexivity].
  now apply Ascii.eqb_eq.
Qed.

Lemma strip_negation_dash (name : string) :
  Spec.strip_negation (String "-" name) = name.
Proof. reflexivity. Qed.

Lemma strip_negation_other (c : ascii) (r : string) :
  Ascii.eqb c "-" = false -> Spec.strip_negation (String c r) = String c r.
Proof.
  destruct c as [[] [] [] [] [] [] [] []]; simpl; intro E;
    try reflexivity; discriminate E.
Qed.

Lemma token_predicate_other (c : ascii) (r : string) :
  Ascii.eqb c "-" = false ->
  Spec.token_predicate (String c r) = Spec.field_equals (String c r) true.
Proof.
  destruct c as [[] [] [] [] [] [] [] []]; simpl; intro E;
    try reflexivity; discriminate E.
Qed.

Lemma startswith_dash (c : ascii) (r : string) :
  Py.startswith "-" (String c r) = Ascii.eqb "-" c.
Proof.
  unfold Py.startswith.
  destruct c as [[] [] [] [] [] [] [] []]; destruct r; reflexivity.
Qed.

Lemma mem_In (x : string) (l : list string) : Py.mem x l = true <-> In x l.
Proof.
  unfold Py.mem. rewrite existsb_exists. split.
  - intros [y [Hy E]]. apply String.eqb_eq in E. now subst.
  - intro Hx. exists x. split; [assumption | apply String.eqb_refl].
Qed.

Lemma bind_Ok {A B} (m : result A) (k : A -> result B) (a : A) :
  m = Ok a -> bind m k = k a.
Proof. now intros ->. Qed.

Lemma all_of_holds (Row : Type) (child_holds : Child -> Row -> bool)
  (row : Row) (qs : list Q) :
  forall q,
    Q_holds child_holds (Spec.all_of q qs) row
    = Q_holds child_holds q row && forallb (fun p => Q_holds child_holds p row) qs.
Proof.
  unfold Spec.all_of.
  induction qs as [|p qs IH]; intro q; simpl.
  - now rewrite andb_true_r.
  - rewrite IH. simpl. now rewrite andb_assoc.
Qed.

Lemma forallb_over_map {A B} (f : A -> B) (p : B -> bool) (l : list A) :
  forallb p (map f l) = forallb (fun x => p (f x)) l.
Proof.
  induction l as [|x l IH]; simpl; [reflexivity | now rewrite IH].
Qed.

Lemma filter_none {A} (p : A -> bool) (l : list A) :
  (forall x, In x l -> p x = false) -> filter p l = [].
Proof.
  induction l as [|x l IH]; intro Hall; simpl; [reflexivity|].
  rewrite (Hall x) by now left.
  apply IH. intros y Hy. apply Hall. now right.
Qed.

(** ** ConditionalFilter: validation of tokens *)

Section ConditionalTokens.
Context {H : Host}.
Import ConditionalFilter.

Lemma term_valid_permitted (names : list string) (term : string) :
  term_valid names term = Spec.permitted names term.
Proof.
  unfold term_valid, Spec.permitted.
  destruct term as [|c r]; [reflexivity|].
  rewrite startswith_dash, Ascii.eqb_sym.
  destruct (ascii_dash_cases c) as [->|E].
  - reflexivity.
  - now rewrite E, strip_negation_other.
Qed.

Lemma permitted_nonempty (names : list string) (token : string) :
  ~ In "" names -> Spec.permitted names token = true -> token <> "".
Proof.
  intros Hne Hp ->. apply Hne. now apply mem_In.
Qed.

Lemma condition_Q_token (token : string) :
  token <> "" -> condition_Q token = Ok (Spec.token_predicate token).
Proof.
  destruct token as [|c r]; [congruence|]. intros _.
  destruct (ascii_dash_cases c) as [->|E].
  - reflexivity.
  - rewrite token_predicate_other by assumption.
    unfold condition_Q; simpl. now rewrite E.
Qed.

Lemma conditions_loop_tokens (tokens : list string) :
  ~ In "" tokens ->
  forall acc,
    conditions_loop tokens acc
    = Ok (acc ++ map Spec.token_predicate tokens)%list.
Proof.
  induction tokens as [|t ts IH]; intros Hne acc; simpl.
  - now rewrite app_nil_r.
  - rewrite condition_Q_token by (intros ->; apply Hne; now left).
    simpl. rewrite IH by (intro Hin; apply Hne; now right).
    now rewrite <- app_assoc.
Qed.

Lemma build_predicate_tokens (t : string) (ts : list string) :
  ~ In "" (t :: ts) ->
  build_predicate (t :: ts)
  = Ok (Spec.all_of (Spec.token_predicate t) (map Spec.token_predicate ts)).
Proof.
  intro Hne. unfold build_predicate.
  rewrite conditions_loop_tokens by assumption. reflexivity.
Qed.

Lemma remove_invalid_fields_Ok self queryset fields view request vf :
  get_valid_fields self queryset view (Some request) = Ok vf ->
  remove_invalid_fields self queryset fields view request
  = Ok (filter (Spec.permitted (map fst vf)) fields).
Proof.
  intro Hvf. unfold remove_invalid_fields. rewrite Hvf. simpl.
  f_equal. apply filter_ext. intro t. apply term_valid_permitted.
Qed.

Lemma get_conditional_supplied self request queryset view params vf :
  qp_get (query_params request) (conditional_param self) = Some params ->
  params <> "" ->
  get_valid_fields self queryset view (Some request) = Ok vf ->
  get_conditional self request queryset view
  = Ok (match filter (Spec.permitted (map fst vf)) (tokens_of params) with
        | [] => get_default_conditional view
        | kept => Some kept
        end).
Proof.
  intros Hq Hne Hvf. unfold get_conditional. rewrite Hq.
  destruct params as [|c r]; [congruence|].
  cbv zeta. rewrite (remove_invalid_fields_Ok _ _ _ _ _ Hvf). simpl bind.
  now destruct (filter _ _).
Qed.

Lemma get_conditional_absent self request queryset view :
  Py.truthy_str (qp_get (query_params request) (conditional_param self))
  = false ->
  get_conditional self request queryset view
  = Ok (get_default_conditional view).
Proof.
  unfold get_conditional.
  destruct (qp_get _ _) as [[|c r]|]; simpl; congruence.
Qed.

End ConditionalTokens.

(** An empty token stops the loop at [condition[0]]. *)
Lemma conditions_loop_empty_token (tokens : list string) :
  In "" tokens ->
  forall acc, ConditionalFilter.conditions_loop tokens acc = Raise IndexError.
Proof.
  induction tokens as [|t ts IH]; intros Hin acc; [destruct Hin|].
  destruct t as [|c r]; [reflexivity|].
  destruct Hin as [E | Hin]; [discriminate E|].
  cbn [ConditionalFilter.conditions_loop].
  rewrite condition_Q_token by discriminate. cbn [bind].
  now apply IH.
Qed.

(** ** ConditionalFilter: claims *)

Section ConditionalClaims.
Context {H : Host}.
Import ConditionalFilter.

(** C3. Whatever comma-delimited value the conditional parameter carries,
    the tokens whose name (one leading '-' stripped) is not a permitted
    field are dropped and the others are kept, in order; no exception is
    raised by the validation, and [filter_queryset] goes on with the
    tokens that remain (with the view's default when none remains). *)
Theorem invalid_tokens_dropped_silently
  (self : Self) (request : Request) (queryset : QuerySet) (view : View)
  (params : string) (vf : list (string * Label)) :
  qp_get (query_params request) (conditional_param self) = Some params ->
  params <> "" ->
  get_valid_fields self queryset view (Some request) = Ok vf ->
  let names := map fst vf in
  let kept := filter (Spec.permitted names) (tokens_of params) in
  remove_invalid_fields self queryset (tokens_of params) view request
  = Ok kept
  /\ (forall t, In t kept <->
                In t (tokens_of params)
                /\ In (Spec.strip_negation t) names)
  /\ get_conditional self request queryset view
     = Ok (match kept with
           | [] => get_default_conditional view
           | _ :: _ => Some kept
           end)
  /\ filter_queryset self request queryset view
     = apply_conditional queryset
         (match kept with
          | [] => get_default_conditional view
          | _ :: _ => Some kept
          end).
Proof.
  intros Hq Hne Hvf names kept.
  assert (Hc := get_conditional_supplied _ _ _ _ Hq Hne Hvf).
  fold names in Hc. fold kept in Hc.
  assert (Hc' : get_conditional self request queryset view
                = Ok (match kept with
                      | [] => get_default_conditional view
                      | _ :: _ => Some kept
                      end))
    by (rewrite Hc; now destruct kept).
  split; [now apply remove_invalid_fields_Ok|].
  split; [|split; [exact Hc'|unfold filter_queryset; now rewrite Hc']].
  intro t. unfold kept. rewrite filter_In. unfold Spec.permitted.
  now rewrite mem_In.
Qed.

(** C10 (amended). When no permitted field name is the empty string,
    every token that [remove_invalid_fields] returns is non-empty, whatever
    the list of candidate tokens (empty and blank segments included); so
    when the request's parameter keeps at least one token, the loop of
    [filter_queryset] reads [condition[0]] without an [IndexError], builds
    one predicate per token and hands their conjunction to the queryset.
    When the parameter keeps no token, the default conditional of the view
    is used without validation: the predicate is built if that default
    holds no empty string, and [IndexError] is raised if it does. *)
Theorem validated_tokens_nonempty
  (self : Self) (request : Request) (queryset : QuerySet) (view : View)
  (vf : list (string * Label)) :
  get_valid_fields self queryset view (Some request) = Ok vf ->
  ~ In "" (map fst vf) ->
  (forall fields,
      exists kept,
        remove_invalid_fields self queryset fields view request = Ok kept
        /\ ~ In "" kept
        /\ (forall t, In t kept -> exists c, Py.head t = Ok c)
        /\ exists conditions,
             conditions_loop kept [] = Ok conditions
             /\ length conditions = length kept)
  /\ (forall params,
        qp_get (query_params request) (conditional_param self)
        = Some params ->
        filter (Spec.permitted (map fst vf)) (tokens_of params) <> [] ->
        exists q,
          build_predicate
            (filter (Spec.permitted (map fst vf)) (tokens_of params))
          = Ok q
          /\ filter_queryset self request queryset view
             = qs_filter queryset q)
  /\ (forall params,
        qp_get (query_params request) (conditional_param self)
        = Some params ->
        filter (Spec.permitted (map fst vf)) (tokens_of params) = [] ->
        (In "" (Spec.declared_default view) ->
         filter_queryset self request queryset view = Raise IndexError)
        /\ (~ In "" (Spec.declared_default view) ->
            filter_queryset self request queryset view
            = match Spec.declared_default view with
              | [] => Ok queryset
              | t :: ts =>
                  qs_filter queryset
                    (Spec.all_of (Spec.token_predicate t)
                       (map Spec.token_predicate ts))
              end)).
Proof.
  intros Hvf Hne.
  assert (Hkept : forall fields,
             ~ In "" (filter (Spec.permitted (map fst vf)) fields)).
  { intros fields Hin. apply filter_In in Hin. destruct Hin as [_ Hp].
    now apply (permitted_nonempty _ Hne Hp). }
  split; [|split].
  - intro fields. eexists.
    split; [apply (remove_invalid_fields_Ok _ _ _ _ _ Hvf)|].
    split; [apply Hkept|]. split.
    + intros [|c r] Hin; [now apply Hkept in Hin|]. now exists c.
    + eexists. split; [apply conditions_loop_tokens, Hkept|].
      simpl. now rewrite length_map.
  - intros params Hq Hk.
    assert (Hp : params <> "").
    { intros ->. apply Hk. specialize (Hkept (tokens_of "")).
      change (tokens_of "") with [""] in *. simpl in *.
      destruct (Spec.permitted (map fst vf) "");
        [exfalso; apply Hkept; now left | reflexivity]. }
    assert (Hc := get_conditional_supplied _ _ _ _ Hq Hp Hvf).
    specialize (Hkept (tokens_of params)).
    destruct (filter _ (tokens_of params)) as [|t ts] eqn:E; [congruence|].
    eexists. split; [now apply build_predicate_tokens|].
    unfold filter_queryset. rewrite Hc. simpl.
    now rewrite build_predicate_tokens.
  - intros params Hq Hk.
    assert (Hc : get_conditional self request queryset view
                 = Ok (get_default_conditional view)).
    { destruct params as [|c r].
      - apply get_conditional_absent. now rewrite Hq.
      - rewrite (@get_conditional_supplied _ _ _ _ _ _ vf Hq);
          [now rewrite Hk | discriminate | assumption]. }
    unfold filter_queryset. rewrite Hc.
    unfold Spec.declared_default, get_default_conditional.
    destruct (view_conditional view) as [[s|l]|]; cbn [bind].
    + split.
      * intros [-> | []]. reflexivity.
      * intro Hs. cbn [apply_conditional].
        now rewrite build_predicate_tokens.
    + destruct l as [|t ts]; [split; [intros [] | reflexivity]|].
      split.
      * intro Hin. cbn [apply_conditional]. unfold build_predicate.
        now rewrite conditions_loop_empty_token.
      * intro Hl. cbn [apply_conditional].
        now rewrite build_predicate_tokens.
    + split; [intros [] | reflexivity].
Qed.

(** C2. A validated token with the prefix '-' contributes "the named
    field equals false", a token without it "the named field equals
    true", and the queryset is filtered by the conjunction of the
    contributions of all validated tokens.  With the permitted fields
    active and verified and the query conditional=active,-verified,bogus
    the queryset is filtered by active = true AND verified = false.
    The tokens are taken non-empty, which C10 derives from non-empty
    permitted names. *)
Theorem token_predicates_conjoined
  (self : Self) (request : Request) (queryset : QuerySet) (view : View)
  (params : string) (vf : list (string * Label))
  (t : string) (ts : list string) :
  qp_get (query_params request) (conditional_param self) = Some params ->
  params <> "" ->
  get_valid_fields self queryset view (Some request) = Ok vf ->
  filter (Spec.permitted (map fst vf)) (tokens_of params) = t :: ts ->
  ~ In "" (t :: ts) ->
  (forall name,
      condition_Q (String "-" name) = Ok (Spec.field_equals name false))
  /\ (forall c r,
        c <> "-"%char ->
        condition_Q (String c r) = Ok (Spec.field_equals (String c r) true))
  /\ filter_queryset self request queryset view
     = qs_filter queryset
         (Spec.all_of (Spec.token_predicate t)
            (map Spec.token_predicate ts))
  /\ (forall (Row : Type) (child_holds : Child -> Row -> bool) (row : Row),
        Q_holds child_holds
          (Spec.all_of (Spec.token_predicate t)
             (map Spec.token_predicate ts)) row
        = forallb
            (fun tok => Q_holds child_holds (Spec.token_predicate tok) row)
            (t :: ts))
  /\ (forall qs : QuerySet,
        filter_queryset default_self Sample.flags_request
          qs Sample.flags_view
        = qs_filter qs
            (QAnd (Spec.field_equals "active" true)
                  (Spec.field_equals "verified" false))).
Proof.
  intros Hq Hp Hvf Hk Hne.
  split; [reflexivity|].
  split.
  { intros c r Hc.
    rewrite condition_Q_token by discriminate.
    rewrite token_predicate_other; [reflexivity|].
    now apply Ascii.eqb_neq. }
  split.
  { unfold filter_queryset.
    rewrite (get_conditional_supplied _ _ _ _ Hq Hp Hvf), Hk. simpl.
    now rewrite build_predicate_tokens. }
  split.
  { intros Row child_holds row. rewrite all_of_holds. simpl.
    now rewrite forallb_over_map. }
  intro qs. reflexivity.
Qed.

(** C4. When the request carries no conditional parameter (or an empty
    one), or when none of the supplied tokens is permitted, the filter
    uses the default conditional declared on the view: a string as one
    token, a sequence as its tokens, and the queryset is filtered by the
    conjunction of what these tokens contribute.  When the view declares
    none (or an empty sequence), [filter_queryset] returns the queryset it
    was given. *)
Theorem falls_back_to_default_conditional
  (self : Self) (request : Request) (queryset : QuerySet) (view : View) :
  Py.truthy_str (qp_get (query_params request) (conditional_param self))
  = false
  \/ (exists params vf,
         qp_get (query_params request) (conditional_param self)
         = Some params
         /\ get_valid_fields self queryset view (Some request) = Ok vf
         /\ forall t, In t (tokens_of params) ->
                      ~ In (Spec.strip_negation t) (map fst vf)) ->
  get_conditional self request queryset view
  = Ok (match view_conditional view with
        | Some (CD_Str s) => Some [s]
        | Some (CD_Seq l) => Some l
        | None => None
        end)
  /\ (view_conditional view = None ->
      filter_queryset self request queryset view = Ok queryset)
  /\ (view_conditional view = Some (CD_Seq []) ->
      filter_queryset self request queryset view = Ok queryset)
  /\ (forall s,
        view_conditional view = Some (CD_Str s) ->
        s <> "" ->
        filter_queryset self request queryset view
        = qs_filter queryset (Spec.token_predicate s))
  /\ (forall t ts,
        view_conditional view = Some (CD_Seq (t :: ts)) ->
        ~ In "" (t :: ts) ->
        filter_queryset self request queryset view
        = qs_filter queryset
            (Spec.all_of (Spec.token_predicate t)
               (map Spec.token_predicate ts))).
Proof.
  intro Hcase.
  assert (Hc : get_conditional self request queryset view
               = Ok (get_default_conditional view)).
  { destruct Hcase as [Habs | (params & vf & Hq & Hvf & Hinv)].
    - now apply get_conditional_absent.
    - destruct params as [|c r].
      + apply get_conditional_absent. now rewrite Hq.
      + rewrite (@get_conditional_supplied _ _ _ _ _ _ vf Hq);
          [|discriminate|assumption].
        rewrite filter_none; [reflexivity|].
        intros t Hin. apply not_true_is_false.
        unfold Spec.permitted. rewrite mem_In. now apply Hinv. }
  split; [exact Hc|].
  unfold filter_queryset. rewrite Hc. unfold get_default_conditional.
  split; [now intros ->|]. split; [now intros ->|]. split.
  - intros s -> Hs. cbn [bind apply_conditional].
    rewrite build_predicate_tokens; [reflexivity|].
    intros [E | []]. now apply Hs.
  - intros t ts -> Hne. cbn [bind apply_conditional].
    now rewrite build_predicate_tokens.
Qed.

(** C6. On a view that configures no permitted conditional fields and
    offers no serializer (no [get_serializer_class] method and no
    [serializer_class], or a method that raises [AssertionError] or
    returns [None]), resolving the valid fields raises
    [ImproperlyConfigured] with a message that contains the name of the
    filter class; a request that supplies the parameter gets that
    exception from [filter_queryset], not a fallback. *)
Theorem missing_serializer_is_configuration_error
  (self : Self) (queryset : QuerySet) (view : View) (context : Context) :
  configured_fields self view = CF_None ->
  (view_get_serializer_class view = None
   /\ view_serializer_class view = None)
  \/ view_get_serializer_class view = Some (Raise AssertionError)
  \/ view_get_serializer_class view = Some (Ok None) ->
  let msg := improperly_configured_msg (class_name self) in
  get_valid_fields self queryset view context
  = Raise (ImproperlyConfigured msg)
  /\ Spec.names_class msg (class_name self)
  /\ (forall request params,
        qp_get (query_params request) (conditional_param self)
        = Some params ->
        params <> "" ->
        filter_queryset self request queryset view
        = Raise (ImproperlyConfigured msg)).
Proof.
  intros Hcf Hno msg.
  assert (Hsc : find_serializer_class view = Ok None).
  { unfold find_serializer_class.
    destruct Hno as [[Hm Ha] | [Hm | Hm]]; rewrite Hm;
      [now rewrite Ha | reflexivity | reflexivity]. }
  assert (Hall : forall ctx,
             get_valid_fields self queryset view ctx
             = Raise (ImproperlyConfigured msg)).
  { intro ctx. unfold get_valid_fields. rewrite Hcf.
    unfold get_default_valid_fields. now rewrite Hsc. }
  split; [apply Hall|]. split.
  - exists "Cannot use ". eexists. reflexivity.
  - intros request [|c r] Hq Hp; [congruence|].
    unfold filter_queryset, get_conditional. rewrite Hq.
    cbv zeta. unfold remove_invalid_fields. now rewrite Hall.
Qed.

Lemma model_property_names_In (queryset : QuerySet) (n : string) :
  In n (model_property_names queryset)
  <-> In (n, true) (qs_model_dir queryset) /\ n <> "pk".
Proof.
  unfold model_property_names. rewrite in_map_iff. split.
  - intros [[a b] [<- Hin]]. apply filter_In in Hin.
    destruct Hin as [Hin Hb]. simpl in *.
    apply andb_true_iff in Hb. destruct Hb as [-> Hpk].
    split; [assumption|].
    apply negb_true_iff in Hpk. now apply String.eqb_neq.
  - intros [Hin Hpk]. exists (n, true). split; [reflexivity|].
    apply filter_In. split; [assumption|]. simpl.
    apply negb_true_iff. now apply String.eqb_neq.
Qed.

Lemma field_kept_iff (queryset : QuerySet) (field : SerializerField) :
  field_kept (model_property_names queryset) field = true
  <-> write_only field <> Some true
      /\ source field <> "*"
      /\ ~ (In (source field, true) (qs_model_dir queryset)
            /\ source field <> "pk").
Proof.
  unfold field_kept.
  rewrite !andb_true_iff, !negb_true_iff, String.eqb_neq.
  rewrite <- model_property_names_In, <- mem_In.
  rewrite not_true_iff_false.
  assert (Hw : match write_only field with
               | Some b => b
               | None => false
               end = false <-> write_only field <> Some true).
  { destruct (write_only field) as [[]|]; split; congruence. }
  rewrite Hw. tauto.
Qed.


End ConditionalClaims.

(** ** FieldsFilter: the loops *)

Lemma foldM_app {A B} (f : A -> B -> result A) (l1 l2 : list B) :
  forall a,
    FieldsFilter.foldM f a (l1 ++ l2)%list
    = bind (FieldsFilter.foldM f a l1) (fun a' => FieldsFilter.foldM f a' l2).
Proof.
  induction l1 as [|x l1 IH]; intro a; simpl; [reflexivity|].
  destruct (f a x) as [a'|e]; simpl; [apply IH | reflexivity].
Qed.

Lemma foldM_ext_in {A B} (f g : A -> B -> result A) (l : list B) :
  (forall a x, In x l -> f a x = g a x) ->
  forall a, FieldsFilter.foldM f a l = FieldsFilter.foldM g a l.
Proof.
  induction l as [|x l IH]; intros Hfg a; simpl; [reflexivity|].
  rewrite (Hfg a x) by now left.
  destruct (g a x) as [a'|e]; simpl; [|reflexivity].
  apply IH. intros b y Hy. apply Hfg. now right.
Qed.

Lemma mapM_total {A B} (f : A -> B) (l : list A) :
  FieldsFilter.mapM (fun x => Ok (f x)) l = Ok (map f l).
Proof.
  induction l as [|x l IH]; simpl; [reflexivity | now rewrite IH].
Qed.

Section SearchLoops.
Context {H : Host}.
Import FieldsFilter.

Lemma field_predicate_single (orm_lookup t : string) (ts : list string) :
  field_predicate [orm_lookup] (t :: ts)
  = Ok (Spec.all_of (search_leaf orm_lookup t)
          (map (search_leaf orm_lookup) ts)).
Proof.
  unfold field_predicate. simpl map.
  change (fun term => Py.reduce QOr [search_leaf orm_lookup term])
    with (fun term => Ok (A := Q) (search_leaf orm_lookup term)).
  now rewrite mapM_total.
Qed.

Lemma get_search_terms_param (r1 r2 : Request) (field : string) :
  qp_get (query_params r1) field = qp_get (query_params r2) field ->
  get_search_terms r1 field = get_search_terms r2 field.
Proof. unfold get_search_terms. now intros ->. Qed.

Lemma filter_field_empty request queryset field :
  get_search_terms request field = Ok [] ->
  filter_field request queryset field = Ok queryset.
Proof. intro Ht. unfold filter_field. now rewrite Ht. Qed.

(** With no custom lookup on offer for any path segment, the traversal
    runs to its end.  The field remembered by the loop always comes from
    [get_field]. *)
Lemma follow_without_lookups (lookup_fields : list string) :
  (forall opts name f other p,
      get_field opts name = Some f ->
      In p lookup_fields ->
      get_lookup f (if String.eqb p "pk" then pk_name other else p)
      = false) ->
  (forall opts name f, get_field opts name = Some f ->
                       path_infos f <> Some []) ->
  forall opts prev_field,
    (forall f, prev_field = Some f ->
               exists o n, get_field o n = Some f) ->
    follow opts prev_field lookup_fields = Ok false.
Proof.
  induction lookup_fields as [|p rest IH];
    intros Hno Hinfos opts prev Hreach; simpl; [reflexivity|].
  assert (IH' : forall o q,
             (forall f, q = Some f -> exists o' n, get_field o' n = Some f) ->
             follow o q rest = Ok false).
  { apply IH; [|assumption].
    intros o n f other q Hf Hq. apply (Hno o n f other q Hf). now right. }
  destruct (get_field opts _) as [field|] eqn:Hf.
  - assert (Hr : forall f, Some field = Some f ->
                           exists o' n, get_field o' n = Some f)
      by (intros f [= <-]; eauto).
    destruct (path_infos field) as [infos|] eqn:Hi; [|now apply IH'].
    destruct (rev infos) as [|to_opts tl] eqn:Hrev; [|now apply IH'].
    exfalso. apply (Hinfos _ _ _ Hf). rewrite Hi. f_equal.
    rewrite <- (rev_involutive infos). now rewrite Hrev.
  - destruct prev as [f|]; [|now apply IH'].
    destruct (Hreach f eq_refl) as (o & n & Hprev).
    rewrite (Hno o n f opts p Hprev) by now left.
    now apply IH'.
Qed.

End SearchLoops.

(** ** FieldsFilter: claims *)

Section SearchClaims.
Context {H : Host}.
Import FieldsFilter.

(** C8. When the view configures no search fields ([filter_fields]
    missing, [None] or empty), [filter_queryset] returns the queryset it
    was given, for every request. *)
Theorem no_search_fields_identity
  (request : Request) (queryset : QuerySet) (view : View) :
  view_filter_fields view = None \/ view_filter_fields view = Some [] ->
  filter_queryset request queryset view = Ok queryset.
Proof.
  unfold filter_queryset, get_search_fields.
  now intros [-> | ->].
Qed.

(** C9. A configured field whose term list is empty contributes no
    predicate: its iteration returns the queryset unchanged, and the
    whole loop gives the same result as it does with that field left out
    of the configured list. *)
Theorem empty_terms_no_predicate
  (request : Request) (queryset : QuerySet) (field : string) :
  get_search_terms request field = Ok [] ->
  filter_field request queryset field = Ok queryset
  /\ forall before after qs,
       foldM (filter_field request) qs (before ++ field :: after)%list
       = foldM (filter_field request) qs (before ++ after)%list.
Proof.
  intro Ht. split; [now apply filter_field_empty|].
  intros before after qs. rewrite !foldM_app.
  destruct (foldM _ qs before) as [qs'|e]; simpl; [|reflexivity].
  now rewrite filter_field_empty.
Qed.

(** C5. A field name that starts with one of ^ = @ $ gets the lookup
    fixed for that character (istartswith, iexact, search, iregex) on the
    rest of the name, for every host and queryset.  A name without such a
    prefix whose traversal ends without returning gets icontains; this is
    the case whenever no path segment is a lookup of a field of the host
    and relation fields have path information. *)
Theorem prefix_selects_lookup (queryset : QuerySet) :
  (forall rest,
      construct_search (String "^" rest) queryset
      = Ok (rest ++ "__istartswith")
      /\ construct_search (String "=" rest) queryset
         = Ok (rest ++ "__iexact")
      /\ construct_search (String "@" rest) queryset
         = Ok (rest ++ "__search")
      /\ construct_search (String "$" rest) queryset
         = Ok (rest ++ "__iregex"))
  /\ (forall name c,
        Py.head name = Ok c ->
        prefix_get lookup_prefixes c = None ->
        follow (qs_meta queryset) None (Py.split LOOKUP_SEP name)
        = Ok false ->
        construct_search name queryset = Ok (name ++ "__icontains"))
  /\ (forall name c,
        Py.head name = Ok c ->
        prefix_get lookup_prefixes c = None ->
        (forall opts n f other p,
            get_field opts n = Some f ->
            In p (Py.split LOOKUP_SEP name) ->
            get_lookup f (if String.eqb p "pk" then pk_name other else p)
            = false) ->
        (forall opts n f, get_field opts n = Some f ->
                          path_infos f <> Some []) ->
        construct_search name queryset = Ok (name ++ "__icontains")).
Proof.
  assert (Hdefault : forall name c,
             Py.head name = Ok c ->
             prefix_get lookup_prefixes c = None ->
             follow (qs_meta queryset) None (Py.split LOOKUP_SEP name)
             = Ok false ->
             construct_search name queryset = Ok (name ++ "__icontains")).
  { intros name c Hc Hp Hf. unfold construct_search.
    rewrite Hc. cbn [bind]. rewrite Hp, Hf. reflexivity. }
  split; [|split].
  - intro rest. repeat split; reflexivity.
  - exact Hdefault.
  - intros name c Hc Hp Hno Hinfos. apply (Hdefault name c Hc Hp).
    apply follow_without_lookups; [assumption..|]. discriminate.
Qed.

(** How the search loop reads the request, as the code is written: each
    configured field takes its terms from the query parameter that carries
    the field's own name; the fields are processed in order, each field
    with terms handing to [filter] the conjunction, over its terms, of
    [search_leaf] on the lookup of that field alone; parameters that are
    not named like a configured field have no influence. *)
Theorem search_terms_read_per_field
  (request : Request) (queryset : QuerySet) (view : View)
  (search_fields : list string) :
  view_filter_fields view = Some search_fields ->
  filter_queryset request queryset view
  = foldM (filter_field request) queryset search_fields
  /\ (forall qs field value cleaned t ts orm_lookup,
        qp_get (query_params request) field = Some value ->
        run_validation value = Ok cleaned ->
        search_smart_split cleaned = t :: ts ->
        construct_search field qs = Ok orm_lookup ->
        filter_field request qs field
        = qs_filter qs
            (Spec.all_of (search_leaf orm_lookup t)
               (map (search_leaf orm_lookup) ts)))
  /\ (forall request',
        (forall field,
            In field search_fields ->
            qp_get (query_params request') field
            = qp_get (query_params request) field) ->
        filter_queryset request' queryset view
        = filter_queryset request queryset view)
  /\ (run_validation "" = Ok "" ->
      search_smart_split "" = [] ->
      forall qs,
        filter_queryset Sample.search_request qs Sample.search_view
        = Ok qs).
Proof.
  intro Hfields.
  assert (Hwhole : forall r,
             filter_queryset r queryset view
             = foldM (filter_field r) queryset search_fields).
  { intro r. unfold filter_queryset, get_search_fields. rewrite Hfields.
    now destruct search_fields. }
  split; [apply Hwhole|]. split; [|split].
  - intros qs field value cleaned t ts orm_lookup Hq Hv Hs Hl.
    unfold filter_field, get_search_terms.
    rewrite Hq, Hv. cbn [bind]. rewrite Hs, Hl. cbn [bind].
    now rewrite field_predicate_single.
  - intros request' Hsame. rewrite !Hwhole.
    apply foldM_ext_in. intros qs field Hin.
    unfold filter_field.
    now rewrite (get_search_terms_param request' request field (Hsame _ Hin)).
  - intros Hv Hs qs.
    set (r := Sample.search_request).
    assert (Ht : forall field,
               qp_get (query_params r) field = None ->
               get_search_terms r field = Ok []).
    { intros field Hq. unfold get_search_terms.
      rewrite Hq, Hv. cbn [bind]. now rewrite Hs. }
    change (filter_queryset r qs Sample.search_view)
      with (foldM (filter_field r) qs ["name"; "^code"]).
    cbn [foldM].
    rewrite (filter_field_empty r qs "name") by now apply Ht.
    cbn [bind].
    rewrite (filter_field_empty r qs "^code") by now apply Ht.
    reflexivity.
Qed.

End SearchClaims.


(** ** The claims on the sample host *)

Lemma assoc_In {A} (l : list (string * A)) (k : string) (v : A) :
  Sample.assoc l k = Some v -> In v (map snd l).
Proof.
  induction l as [|[k' v'] l IH]; simpl; [discriminate|].
  destruct (String.eqb k' k); [intros [= <-]; now left | right; now apply IH].
Qed.

Import Sample.
#[local] Existing Instance Sample.host.

Lemma sample_fields (model : nat) (name : string) (f : SField) :
  get_field model name = Some f ->
  f = bool_field \/ f = char_field
  \/ f = {| sf_lookups := ["exact"]; sf_path := Some [1] |}.
Proof.
  intro Hf. apply assoc_In in Hf.
  destruct model as [|[|model]]; simpl in Hf;
    repeat (destruct Hf as [<- | Hf]; [auto|]); destruct Hf.
Qed.

Lemma invalid_tokens_dropped_silently_witness :
  ConditionalFilter.remove_invalid_fields ConditionalFilter.default_self []
    (ConditionalFilter.tokens_of "active,-verified,bogus")
    flags_view flags_request
  = Ok ["active"; "-verified"]
  /\ ConditionalFilter.get_conditional ConditionalFilter.default_self
       flags_request [] flags_view
     = Ok (Some ["active"; "-verified"]).
Proof.
  destruct (@invalid_tokens_dropped_silently Sample.host
              ConditionalFilter.default_self flags_request [] flags_view
              "active,-verified,bogus" flags_vf
              eq_refl ltac:(discriminate) eq_refl)
    as (H1 & _ & H3 & _).
  split; [exact H1 | exact H3].
Defined.

Lemma validated_tokens_nonempty_witness :
  (exists kept,
      ConditionalFilter.remove_invalid_fields ConditionalFilter.default_self
        [] (ConditionalFilter.tokens_of "active,, ,-, -verified ")
        flags_view flags_request
      = Ok kept
      /\ ~ In "" kept)
  /\ ConditionalFilter.filter_queryset ConditionalFilter.default_self
       (request_of [("conditional", "bogus")]) []
       SampleMore.default_flags_view
     = Ok [QAnd (Spec.field_equals "verified" false)
                (Spec.field_equals "active" true)].
Proof.
  assert (Hne : ~ In "" (map fst flags_vf))
    by (simpl; intros [E | [E | []]]; discriminate E).
  split.
  - destruct (@validated_tokens_nonempty Sample.host
                ConditionalFilter.default_self flags_request [] flags_view
                flags_vf eq_refl Hne) as [Hall _].
    destruct (Hall (ConditionalFilter.tokens_of "active,, ,-, -verified "))
      as (kept & Hk & Hno & _).
    exists kept. split; assumption.
  - destruct (@validated_tokens_nonempty Sample.host
                ConditionalFilter.default_self
                (request_of [("conditional", "bogus")]) []
                SampleMore.default_flags_view flags_vf eq_refl Hne)
      as (_ & _ & Hdef).
    apply (proj2 (Hdef "bogus" eq_refl eq_refl)).
    simpl. intros [E | [E | []]]; discriminate E.
Defined.

(** C10, as stated, fails: with the one permitted field active, the
    default conditional ('active', '') and the query conditional=bogus,
    no supplied token is valid, the default is used, and [condition[0]]
    indexes the empty string. *)
Lemma invalid_tokens_reach_empty_default :
  ConditionalFilter.get_valid_fields ConditionalFilter.default_self []
    SampleMore.empty_default_view
    (Some (request_of [("conditional", "bogus")]))
  = Ok [("active", LStr "active")]
  /\ ~ In "" (map fst [("active", LStr "active")])
  /\ ConditionalFilter.filter_queryset ConditionalFilter.default_self
       (request_of [("conditional", "bogus")]) []
       SampleMore.empty_default_view
     = Raise IndexError.
Proof.
  split; [reflexivity|]. split; [|reflexivity].
  simpl. intros [E | []]. discriminate E.
Qed.

Lemma token_predicates_conjoined_witness :
  ConditionalFilter.filter_queryset ConditionalFilter.default_self
    flags_request [] flags_view
  = Ok [QAnd (Spec.field_equals "active" true)
             (Spec.field_equals "verified" false)].
Proof.
  assert (Hne : ~ In "" ["active"; "-verified"])
    by (simpl; intros [E | [E | []]]; discriminate E).
  destruct (@token_predicates_conjoined Sample.host
              ConditionalFilter.default_self flags_request [] flags_view
              "active,-verified,bogus" flags_vf "active" ["-verified"]
              eq_refl ltac:(discriminate) eq_refl eq_refl Hne)
    as (_ & _ & H3 & _).
  exact H3.
Defined.

Lemma falls_back_to_default_conditional_witness :
  ConditionalFilter.filter_queryset ConditionalFilter.default_self
    (request_of [("page", "2")]) [] SampleMore.default_flags_view
  = Ok [QAnd (Spec.field_equals "verified" false)
             (Spec.field_equals "active" true)]
  /\ ConditionalFilter.filter_queryset ConditionalFilter.default_self
       (request_of [("conditional", "bogus,-other")]) []
       SampleMore.default_flags_view
     = Ok [QAnd (Spec.field_equals "verified" false)
                (Spec.field_equals "active" true)]
  /\ ConditionalFilter.filter_queryset ConditionalFilter.default_self
       (request_of [("page", "2")]) [] SampleMore.default_only_view
     = Ok [Spec.field_equals "active" true]
  /\ ConditionalFilter.filter_queryset ConditionalFilter.default_self
       (request_of [("conditional", "bogus,-other")]) [] flags_view
     = Ok [].
Proof.
  assert (Hinv : forall t,
             In t (ConditionalFilter.tokens_of "bogus,-other") ->
             ~ In (Spec.strip_negation t) (map fst flags_vf)).
  { simpl. intros t [<- | [<- | []]]; simpl;
      intros [E | [E | []]]; discriminate E. }
  assert (Hne : ~ In "" ["-verified"; "active"])
    by (simpl; intros [E | [E | []]]; discriminate E).
  split; [|split; [|split]].
  - destruct (@falls_back_to_default_conditional Sample.host
                ConditionalFilter.default_self
                (request_of [("page", "2")]) []
                SampleMore.default_flags_view (or_introl eq_refl))
      as (_ & _ & _ & _ & Hseq).
    exact (Hseq "-verified" ["active"] eq_refl Hne).
  - destruct (@falls_back_to_default_conditional Sample.host
                ConditionalFilter.default_self
                (request_of [("conditional", "bogus,-other")]) []
                SampleMore.default_flags_view
                (or_intror
                   (ex_intro _ "bogus,-other"
                      (ex_intro _ flags_vf
                         (conj eq_refl (conj eq_refl Hinv))))))
      as (_ & _ & _ & _ & Hseq).
    exact (Hseq "-verified" ["active"] eq_refl Hne).
  - destruct (@falls_back_to_default_conditional Sample.host
                ConditionalFilter.default_self
                (request_of [("page", "2")]) []
                SampleMore.default_only_view (or_introl eq_refl))
      as (_ & _ & _ & Hstr & _).
    apply (Hstr "active" eq_refl). discriminate.
  - destruct (@falls_back_to_default_conditional Sample.host
                ConditionalFilter.default_self
                (request_of [("conditional", "bogus,-other")]) []
                flags_view
                (or_intror
                   (ex_intro _ "bogus,-other"
                      (ex_intro _ flags_vf
                         (conj eq_refl (conj eq_refl Hinv))))))
      as (_ & Hnone & _).
    exact (Hnone eq_refl).
Defined.

Lemma missing_serializer_is_configuration_error_witness :
  ConditionalFilter.get_valid_fields ConditionalFilter.default_self []
    bare_view None
  = Raise (ImproperlyConfigured
             (ConditionalFilter.improperly_configured_msg
                "ConditionalFilter"))
  /\ ConditionalFilter.filter_queryset ConditionalFilter.default_self
       flags_request [] bare_view
     = Raise (ImproperlyConfigured
                (ConditionalFilter.improperly_configured_msg
                   "ConditionalFilter")).
Proof.
  destruct (@missing_serializer_is_configuration_error Sample.host
              ConditionalFilter.default_self [] bare_view None
              eq_refl (or_introl (conj eq_refl eq_refl)))
    as (H1 & _ & H3).
  split; [exact H1|].
  apply (H3 flags_request "active,-verified,bogus" eq_refl).
  discriminate.
Defined.


Lemma no_search_fields_identity_witness :
  FieldsFilter.filter_queryset fields_request [] flags_view = Ok [].
Proof.
  exact (@no_search_fields_identity Sample.host fields_request []
           flags_view (or_introl eq_refl)).
Defined.

Lemma empty_terms_no_predicate_witness :
  FieldsFilter.filter_field blank_request [] "name" = Ok []
  /\ FieldsFilter.foldM (FieldsFilter.filter_field blank_request) []
       ["name"; "^code"]
     = FieldsFilter.foldM (FieldsFilter.filter_field blank_request) []
         ["^code"].
Proof.
  destruct (@empty_terms_no_predicate Sample.host blank_request []
              "name" eq_refl) as [H1 H2].
  split; [exact H1 | exact (H2 [] ["^code"] [])].
Defined.

Lemma prefix_selects_lookup_witness :
  FieldsFilter.construct_search "^code" [] = Ok "code__istartswith"
  /\ FieldsFilter.construct_search "name" [] = Ok "name__icontains"
  /\ FieldsFilter.construct_search "author__name" []
     = Ok "author__name__icontains".
Proof.
  destruct (@prefix_selects_lookup Sample.host []) as (Ha & Hb & Hc).
  split; [exact (proj1 (Ha "code"))|].
  split; [exact (Hb "name" "n"%char eq_refl eq_refl eq_refl)|].
  apply (Hc "author__name" "a"%char eq_refl eq_refl).
  - intros opts n f other p Hf Hin.
    destruct (sample_fields _ _ Hf) as [-> | [-> | ->]];
      simpl in Hin; destruct Hin as [<- | [<- | []]]; reflexivity.
  - intros opts n f Hf.
    destruct (sample_fields _ _ Hf) as [-> | [-> | ->]]; discriminate.
Defined.

Lemma search_terms_read_per_field_witness :
  FieldsFilter.filter_queryset fields_request [] search_view
  = Ok [ QAnd (FieldsFilter.search_leaf "name__icontains" "foo")
              (FieldsFilter.search_leaf "name__icontains" "bar");
         FieldsFilter.search_leaf "code__istartswith" "x" ]
  /\ FieldsFilter.filter_field fields_request [] "name"
     = Ok [ QAnd (FieldsFilter.search_leaf "name__icontains" "foo")
                 (FieldsFilter.search_leaf "name__icontains" "bar") ]
  /\ FieldsFilter.filter_queryset search_request [] search_view = Ok [].
Proof.
  destruct (@search_terms_read_per_field Sample.host fields_request []
              search_view ["name"; "^code"] eq_refl)
    as (H1 & H2 & _ & H4).
  split; [exact H1|].
  split; [|exact (H4 eq_refl eq_refl [])].
  exact (H2 [] "name" "foo bar" "foo bar" "foo" ["bar"] "name__icontains"
           eq_refl eq_refl eq_refl eq_refl).
Defined.

(** C1. At the input of the specification's example, the search fields
    name and ^code with the query search=foo bar, the code does not do
    what the claim says: the search parameter is not read, no predicate
    reaches the queryset, and a row that contains neither foo nor bar is
    still selected, while the predicate of the claim rejects it.  When a
    field's own parameter carries a term, the predicate handed to [filter]
    holds the dict {lookup: term} as a positional child, not the keyword
    lookup = term of the claim. *)
Lemma search_parameter_ignored :
  FieldsFilter.filter_queryset search_request [] search_view = Ok []
  /\ FieldsFilter.filter_queryset search_request [] search_view
     <> qs_filter [] Spec.example_search_predicate
  /\ rows_of [zzz_row] [] = [zzz_row]
  /\ rows_of [zzz_row] [Spec.example_search_predicate] = []
  /\ FieldsFilter.filter_field fields_request [] "^code"
     = Ok [QLeaf (Pos [("code__istartswith", VStr "x")])]
  /\ QLeaf (Pos [("code__istartswith", VStr "x")])
     <> Spec.matches "code__istartswith" "x".
Proof.
  split; [reflexivity|]. split; [discriminate|].
  split; [reflexivity|]. split; [reflexivity|].
  split; [reflexivity | discriminate].
Qed.


Example custom_lookup_kept :
  FieldsFilter.construct_search "author__name__iexact" []
  = Ok "author__name__iexact".
Proof. reflexivity. Qed.

Example pk_default_lookup :
  FieldsFilter.construct_search "pk" [] = Ok "pk__icontains".
Proof. reflexivity. Qed.

Example empty_field_name :
  FieldsFilter.construct_search "" [] = Raise IndexError.
Proof. reflexivity. Qed.

Example all_fields_sentinel :
  ConditionalFilter.get_valid_fields ConditionalFilter.default_self []
    {| view_conditional_fields := Some (CF_Str "__all__");
       view_conditional := None;
       view_get_serializer_class := None;
       view_serializer_class := None;
       view_filter_fields := None |} None
  = Ok [ ("id", LStr "id"); ("name", LStr "name"); ("code", LStr "code");
         ("active", LStr "active"); ("verified", LStr "verified");
         ("author", LStr "author");
         ("book_count__max", LParts ["Book_Count"; "Max"]) ].
Proof. reflexivity. Qed.

(** * Further properties of the code *)

(** ** Lists, strings and predicate trees *)

Lemma filter_twice {A} (p : A -> bool) (l : list A) :
  filter p (filter p l) = filter p l.
Proof. apply forallb_filter_id, forallb_filter. Qed.

Lemma filter_shorter {A} (p : A -> bool) (l : list A) :
  length (filter p l) <= length l.
Proof.
  induction l as [|x l IH]; simpl; [lia|].
  destruct (p x); simpl; lia.
Qed.

Lemma leaves_all_of (qs : list Q) :
  forall q,
    Shape.leaves (Spec.all_of q qs)
    = (Shape.leaves q ++ flat_map Shape.leaves qs)%list.
Proof.
  unfold Spec.all_of.
  induction qs as [|p qs IH]; intro q; simpl.
  - now rewrite app_nil_r.
  - rewrite IH. simpl. now rewrite <- app_assoc.
Qed.

Lemma and_only_all_of (qs : list Q) :
  forall q,
    Shape.and_only q = true ->
    forallb Shape.and_only qs = true ->
    Shape.and_only (Spec.all_of q qs) = true.
Proof.
  unfold Spec.all_of.
  induction qs as [|p qs IH]; intros q Hq Hqs; simpl in *; [assumption|].
  apply andb_true_iff in Hqs. destruct Hqs as [Hp Hqs].
  apply IH; [|assumption]. simpl. now rewrite Hq, Hp.
Qed.

Lemma token_predicate_leaf (token : string) :
  Spec.token_predicate token = QLeaf (Shape.token_child token).
Proof.
  destruct token as [|c r]; [reflexivity|].
  destruct (ascii_dash_cases c) as [->|E]; [reflexivity|].
  rewrite token_predicate_other by assumption.
  destruct c as [[] [] [] [] [] [] [] []]; try reflexivity; discriminate E.
Qed.










Lemma prefix_comma (c : ascii) (r : string) :
  String.prefix "," (String c r) = Ascii.eqb c ",".
Proof.
  destruct c as [[] [] [] [] [] [] [] []]; destruct r; reflexivity.
Qed.


(** ** ConditionalFilter: further properties *)

Section ConditionalFurther.
Context {H : Host}.
Import ConditionalFilter.

(** X1. Validation never adds a token and is idempotent: validating the
    tokens that a validation returned returns them unchanged. *)
Theorem validation_idempotent
  (self : Self) (queryset : QuerySet) (fields : list string) (view : View)
  (request : Request) (kept : list string) :
  remove_invalid_fields self queryset fields view request = Ok kept ->
  remove_invalid_fields self queryset kept view request = Ok kept
  /\ length kept <= length fields
  /\ forall t, In t kept -> In t fields.
Proof.
  unfold remove_invalid_fields.
  destruct (get_valid_fields self queryset view (Some request)) as [vf|e];
    simpl; [|discriminate].
  intros [= <-]. rewrite filter_twice.
  split; [reflexivity|]. split; [apply filter_shorter|].
  intros t Hin. now apply filter_In in Hin.
Qed.

(** X2. An allow-list given as a string other than '__all__' is read
    character by character: the permitted names are the one-character
    strings of its characters, so a string of two or more characters does
    not permit the name it spells. *)
Theorem string_allow_list_permits_characters
  (self : Self) (queryset : QuerySet) (view : View) (context : Context)
  (s : string) :
  configured_fields self view = CF_Str s ->
  s <> "__all__" ->
  exists vf,
    get_valid_fields self queryset view context = Ok vf
    /\ map fst vf = map (fun c => String c "") (Shape.chars_of s)
    /\ (2 <= String.length s -> ~ In s (map fst vf)).
Proof.
  intros Hcf Hs. unfold get_valid_fields. rewrite Hcf.
  apply String.eqb_neq in Hs. rewrite Hs.
  eexists. split; [reflexivity|].
  assert (Hnames : map fst (map (fun c => (c, LStr c)) (chars s))
                   = map (fun c => String c "") (Shape.chars_of s)).
  { rewrite map_map. simpl. rewrite map_id. unfold Shape.chars_of.
    clear. induction s as [|c s IH]; simpl; [reflexivity | now rewrite IH]. }
  split; [exact Hnames|].
  intros Hlen Hin. rewrite Hnames in Hin.
  apply in_map_iff in Hin. destruct Hin as [c [<- _]].
  simpl in Hlen. lia.
Qed.

(** X3. The default conditional declared on the view is used as it is:
    when the request carries no conditional parameter, its tokens are not
    checked against the permitted fields, and the permitted fields are not
    even resolved, so the filter is applied also on a view for which that
    resolution would raise. *)
Theorem default_conditional_not_validated
  (self : Self) (request : Request) (queryset : QuerySet) (view : View)
  (t : string) (ts : list string) :
  Py.truthy_str (qp_get (query_params request) (conditional_param self))
  = false ->
  get_default_conditional view = Some (t :: ts) ->
  ~ In "" (t :: ts) ->
  filter_queryset self request queryset view
  = qs_filter queryset
      (Spec.all_of (Spec.token_predicate t) (map Spec.token_predicate ts)).
Proof.
  intros Habs Hdef Hne. unfold filter_queryset.
  rewrite (get_conditional_absent _ _ _ _ Habs), Hdef. simpl.
  now rewrite build_predicate_tokens.
Qed.

(** X4. An empty token in the conditional that is used makes
    [filter_queryset] raise [IndexError]: this happens when the default
    conditional of the view holds an empty string (or is the empty string)
    and the request carries no conditional parameter. *)
Theorem empty_default_token_raises
  (self : Self) (request : Request) (queryset : QuerySet) (view : View)
  (tokens : list string) :
  Py.truthy_str (qp_get (query_params request) (conditional_param self))
  = false ->
  get_default_conditional view = Some tokens ->
  In "" tokens ->
  filter_queryset self request queryset view = Raise IndexError.
Proof.
  intros Habs Hdef Hin. unfold filter_queryset.
  rewrite (get_conditional_absent _ _ _ _ Habs), Hdef. simpl.
  destruct tokens as [|t ts]; [destruct Hin|].
  unfold build_predicate.
  now rewrite conditions_loop_empty_token.
Qed.

(** X5. Resolving the permitted fields never raises when the value of
    [conditional_fields] in effect (that of the view when the view has the
    attribute, else that of the filter class) is an allow-list or a
    string.  When it is [None], an exception other than [AssertionError]
    raised by [get_serializer_class] is passed on unchanged.  A view whose
    attribute is [None] hides an allow-list of the filter class: without a
    serializer the configuration error is raised all the same. *)
Theorem valid_fields_failures
  (self : Self) (queryset : QuerySet) (view : View) (context : Context) :
  (configured_fields self view <> CF_None ->
   exists vf, get_valid_fields self queryset view context = Ok vf)
  /\ (forall e,
        configured_fields self view = CF_None ->
        view_get_serializer_class view = Some (Raise e) ->
        e <> AssertionError ->
        get_valid_fields self queryset view context = Raise e)
  /\ (view_conditional_fields view = Some CF_None ->
      view_get_serializer_class view = None ->
      view_serializer_class view = None ->
      get_valid_fields self queryset view context
      = Raise (ImproperlyConfigured
                 (improperly_configured_msg (class_name self)))).
Proof.
  unfold get_valid_fields, get_default_valid_fields, find_serializer_class.
  split; [|split].
  - intro Hcf.
    destruct (configured_fields self view) as [|s|items];
      [congruence| |eauto].
    destruct (String.eqb s "__all__"); eauto.
  - intros e -> -> He. now destruct e.
  - intros Hv Hm Ha. unfold configured_fields. now rewrite Hv, Hm, Ha.
Qed.

(** X6. The predicate built from the conditional has one keyword child
    per token, in the order of the tokens and with repeated tokens
    repeated, and is joined by AND only. *)
Theorem conditional_predicate_shape (tokens : list string) (q : Q) :
  build_predicate tokens = Ok q ->
  Shape.leaves q = map Shape.token_child tokens
  /\ Shape.and_only q = true.
Proof.
  intro Hb.
  destruct (in_dec string_dec "" tokens) as [Hin | Hne].
  { unfold build_predicate in Hb.
    rewrite conditions_loop_empty_token in Hb by assumption.
    discriminate Hb. }
  destruct tokens as [|t ts]; [discriminate Hb|].
  rewrite build_predicate_tokens in Hb by assumption.
  injection Hb as <-. split.
  - rewrite leaves_all_of, token_predicate_leaf. simpl. f_equal.
    clear. induction ts as [|x ts IH]; simpl; [reflexivity|].
    now rewrite token_predicate_leaf, IH.
  - apply and_only_all_of; [now rewrite token_predicate_leaf|].
    rewrite forallb_over_map. apply forallb_forall. intros x _.
    now rewrite token_predicate_leaf.
Qed.


(** X8. The permitted name of a serializer field with a non-empty source
    is the source with every dot replaced by two underscores: it contains
    no dot and is not empty.  A field with an empty source is permitted
    under its own field name. *)
Theorem valid_name_has_no_dot (field_name : string) (field : SerializerField) :
  (source field <> "" ->
   valid_name field_name field = Py.replace_char "." "__" (source field)
   /\ ~ In "."%char (Shape.chars_of (valid_name field_name field))
   /\ valid_name field_name field <> "")
  /\ (source field = "" -> valid_name field_name field = field_name).
Proof.
  unfold valid_name. split.
  - intro Hs.
    assert (Hnodot : forall s,
               ~ In "."%char (Shape.chars_of (Py.replace_char "." "__" s))).
    { induction s as [|c s IH]; simpl; [intros []|].
      destruct (Ascii.eqb c ".") eqn:E; simpl.
      - intros [E' | [E' | Hin]]; [discriminate E' | discriminate E'|].
        now apply IH.
      - intros [E' | Hin]; [|now apply IH].
        apply Ascii.eqb_neq in E. now apply E. }
    assert (Hne : Py.replace_char "." "__" (source field) <> "").
    { destruct (source field) as [|c s]; [congruence|]. simpl.
      destruct (Ascii.eqb c "."); discriminate. }
    destruct (Py.replace_char "." "__" (source field)) as [|c r] eqn:E;
      [congruence|].
    cbn [or_str]. split; [reflexivity|]. split; [|discriminate].
    rewrite <- E. apply Hnodot.
  - now intros ->.
Qed.

(** X9. A serializer field read from pk stays permitted although pk is a
    property of every model class: a declared field that is not
    write-only and has the source pk yields the permitted name pk. *)
Theorem pk_source_permitted
  (self : Self) (queryset : QuerySet) (view : View) (context : Context)
  (sc : SerializerClass) (field_name : string) (field : SerializerField) :
  configured_fields self view = CF_None ->
  find_serializer_class view = Ok (Some sc) ->
  In (field_name, field) (fields_items sc context) ->
  write_only field <> Some true ->
  source field = "pk" ->
  exists vf,
    get_valid_fields self queryset view context = Ok vf
    /\ In "pk" (map fst vf).
Proof.
  intros Hcf Hsc Hin Hw Hs.
  unfold get_valid_fields. rewrite Hcf.
  unfold get_default_valid_fields. rewrite Hsc. cbn [bind].
  eexists. split; [reflexivity|].
  rewrite map_map. apply in_map_iff.
  exists (field_name, field). split.
  - simpl. unfold valid_name. now rewrite Hs.
  - apply filter_In. split; [assumption|]. simpl.
    apply field_kept_iff. rewrite Hs.
    split; [assumption|]. split; [discriminate|].
    intros [_ Hpk]. now apply Hpk.
Qed.

End ConditionalFurther.

(** ** FieldsFilter: further properties *)

Lemma qp_get_other (qp : list (string * string)) (key value field : string) :
  key <> field ->
  qp_get (qp ++ [(key, value)]) field = qp_get qp field.
Proof.
  intro Hne. induction qp as [|[k v] qp IH]; simpl.
  - apply String.eqb_neq in Hne. now rewrite Hne.
  - now rewrite IH.
Qed.


Lemma bind_ret {A} (m : result A) : bind m (fun a => Ok a) = m.
Proof. now destruct m. Qed.

Section SearchFurther.
Context {H : Host}.
Import FieldsFilter.

Lemma follow_outcomes (lookup_fields : list string) :
  forall opts prev_field,
    follow opts prev_field lookup_fields = Ok true
    \/ follow opts prev_field lookup_fields = Ok false
    \/ (follow opts prev_field lookup_fields = Raise IndexError
        /\ exists o n f, get_field o n = Some f /\ path_infos f = Some []).
Proof.
  induction lookup_fields as [|p rest IH]; intros opts prev; simpl; [auto|].
  destruct (get_field opts _) as [field|] eqn:Hf.
  - destruct (path_infos field) as [infos|] eqn:Hi; [|apply IH].
    destruct (rev infos) as [|to_opts tl] eqn:Hrev; [|apply IH].
    right. right. split; [reflexivity|].
    exists opts. eexists. exists field. split; [exact Hf|].
    rewrite Hi. f_equal.
    rewrite <- (rev_involutive infos). now rewrite Hrev.
  - destruct (match prev with Some f => get_lookup f _ | None => false end);
      [auto | apply IH].
Qed.


Lemma in_prefixes_get (c : ascii) :
  Distinct.in_prefixes c = false ->
  prefix_get lookup_prefixes c = None.
Proof.
  unfold Distinct.in_prefixes.
  now destruct (prefix_get lookup_prefixes c).
Qed.

(** X10. For a field name without a lookup prefix [construct_search]
    returns the name as it is or the name with __icontains, and nothing
    else; it raises only [IndexError], for the empty name or when a
    relation field of the host has an empty list of path infos. *)
Theorem construct_search_outcomes (queryset : QuerySet) :
  construct_search "" queryset = Raise IndexError
  /\ forall c rest,
       Distinct.in_prefixes c = false ->
       let name := String c rest in
       construct_search name queryset = Ok name
       \/ construct_search name queryset = Ok (name ++ "__icontains")
       \/ (construct_search name queryset = Raise IndexError
           /\ exists o n f, get_field o n = Some f /\ path_infos f = Some []).
Proof.
  split; [reflexivity|].
  intros c rest Hc name. subst name. unfold construct_search.
  cbn [Py.head bind]. rewrite (in_prefixes_get _ Hc).
  destruct (follow_outcomes (Py.split LOOKUP_SEP (String c rest))
              (qs_meta queryset) None) as [E | [E | [E Hex]]];
    rewrite E; cbn [bind]; auto.
Qed.


(** X12. Filtering with the search fields of two views one after the
    other is filtering with the concatenation of their search fields. *)
Theorem search_fields_compose
  (request : Request) (queryset : QuerySet) (v1 v2 v12 : View)
  (l1 l2 : list string) :
  view_filter_fields v1 = Some l1 ->
  view_filter_fields v2 = Some l2 ->
  view_filter_fields v12 = Some (l1 ++ l2)%list ->
  filter_queryset request queryset v12
  = (qs <- filter_queryset request queryset v1 ;;
     filter_queryset request qs v2).
Proof.
  intros H1 H2 H12.
  assert (Hwhole : forall v l qs,
             view_filter_fields v = Some l ->
             filter_queryset request qs v
             = foldM (filter_field request) qs l).
  { intros v l qs Hv. unfold filter_queryset, get_search_fields.
    rewrite Hv. now destruct l. }
  rewrite (Hwhole _ _ _ H12), (Hwhole _ _ _ H1), foldM_app.
  destruct (foldM (filter_field request) queryset l1) as [qs|e];
    cbn [bind]; [|reflexivity].
  now rewrite (Hwhole _ _ _ H2).
Qed.

(** X13. The parameter that the schema of the search filter documents is
    not read when filtering: unless its name is one of the configured
    search fields, adding it to a request, with any value, does not change
    the result of [filter_queryset]. *)
Theorem documented_search_parameter_unread
  (force_str : string -> string) (self : Schema.SearchSelf)
  (request : Request) (queryset : QuerySet) (view : View)
  (search_fields : list string) (value : string) :
  view_filter_fields view = Some search_fields ->
  ~ In (Schema.search_param self) search_fields ->
  forall p,
    In p (Schema.search_operation_parameters force_str self view) ->
    filter_queryset (Shape.with_param request (Schema.op_name p) value)
      queryset view
    = filter_queryset request queryset view.
Proof.
  intros Hf Hnot p [<- | []]. simpl Schema.op_name.
  unfold filter_queryset, get_search_fields. rewrite Hf.
  destruct search_fields as [|f fs]; [reflexivity|].
  apply foldM_ext_in. intros qs field Hin.
  unfold filter_field.
  rewrite (get_search_terms_param
             (Shape.with_param request (Schema.search_param self) value)
             request field); [reflexivity|].
  apply qp_get_other. intro E. apply Hnot. now rewrite E.
Qed.

End SearchFurther.

Section ConditionalSchema.
Context {H : Host}.
Import ConditionalFilter.

(** X14. With an allow-list configured, the conditional filter looks at
    the request only through the parameter that its schema documents: two
    requests that give that parameter the same value are filtered
    alike. *)
Theorem conditional_reads_documented_parameter
  (force_str : string -> string) (description : string)
  (self : Self) (r1 r2 : Request) (queryset : QuerySet) (view : View) :
  configured_fields self view <> CF_None ->
  (forall p,
      In p (Schema.conditional_operation_parameters force_str self
              description view) ->
      qp_get (query_params r1) (Schema.op_name p)
      = qp_get (query_params r2) (Schema.op_name p)) ->
  filter_queryset self r1 queryset view
  = filter_queryset self r2 queryset view.
Proof.
  intros Hcf Hsame.
  assert (Hq : qp_get (query_params r1) (conditional_param self)
               = qp_get (query_params r2) (conditional_param self)).
  { apply (Hsame {| Schema.op_name := conditional_param self;
                    Schema.op_required := false;
                    Schema.op_in := "query";
                    Schema.op_description := force_str description;
                    Schema.op_schema_type := "string" |}).
    now left. }
  assert (Hvf : get_valid_fields self queryset view (Some r1)
                = get_valid_fields self queryset view (Some r2)).
  { unfold get_valid_fields.
    destruct (configured_fields self view); [congruence | reflexivity..]. }
  unfold filter_queryset, get_conditional, remove_invalid_fields.
  now rewrite Hq, Hvf.
Qed.

End ConditionalSchema.

(** ** must_call_distinct *)

Section DistinctProps.
Context {H : Host} {P : Distinct.PathHost}.
Import Distinct.

Lemma distinct_parts_no_m2m (parts : list string) :
  (forall opts n f path_info,
      get_field opts n = Some f ->
      get_path_info f = Some path_info ->
      existsb snd path_info = false) ->
  forall opts, distinct_parts opts parts <> Ok true.
Proof.
  intro Hno. induction parts as [|p rest IH]; intro opts; simpl;
    [discriminate|].
  destruct (get_field opts p) as [field|] eqn:Hf; [|discriminate].
  destruct (get_path_info field) as [path_info|] eqn:Hp; [|discriminate].
  destruct (rev path_info) as [|[to_opts m] tl]; [discriminate|].
  rewrite (Hno _ _ _ _ Hf Hp). apply IH.
Qed.

(** X15. [must_call_distinct] answers True only through a many-to-many
    path: on a host none of whose fields has such an entry in its path
    info it never returns True. *)
Theorem distinct_needs_m2m
  (queryset : QuerySet) (search_fields : list string) :
  (forall opts n f path_info,
      get_field opts n = Some f ->
      get_path_info f = Some path_info ->
      existsb snd path_info = false) ->
  must_call_distinct queryset search_fields <> Ok true.
Proof.
  intro Hno. induction search_fields as [|f fs IH]; simpl; [discriminate|].
  destruct (Py.head f) as [c0|e]; cbn [bind]; [|discriminate].
  destruct (is_queryset queryset && _); [exact IH|].
  destruct (distinct_parts _ _) as [[|]|e] eqn:E; cbn [bind];
    [|exact IH|discriminate].
  exfalso. now apply (distinct_parts_no_m2m _ Hno _ E).
Qed.

(** X16. The search fields are examined in order and the first decisive
    one wins: for a concatenation the answer is that of the first list
    when it is True or an exception, and that of the second list
    otherwise. *)
Theorem distinct_concatenation
  (queryset : QuerySet) (l1 l2 : list string) :
  must_call_distinct queryset (l1 ++ l2)%list
  = match must_call_distinct queryset l1 with
    | Ok false => must_call_distinct queryset l2
    | decided => decided
    end.
Proof.
  induction l1 as [|f fs IH]; simpl; [reflexivity|].
  destruct (Py.head f) as [c0|e]; cbn [bind]; [|reflexivity].
  destruct (is_queryset queryset && _); [exact IH|].
  destruct (distinct_parts _ _) as [[|]|e]; cbn [bind];
    [reflexivity | exact IH | reflexivity].
Qed.


End DistinctProps.

(** ** Conflicting tokens, token counts and custom lookups *)

Lemma split_comma_count (s : string) :
  forall cur,
    length (Py.split_go "," 0 cur s)
    = S (count_occ ascii_dec (Shape.chars_of s) ","%char).
Proof.
  unfold Shape.chars_of.
  induction s as [|c s IH]; intro cur; [reflexivity|].
  cbn [Py.split_go]. rewrite prefix_comma. simpl list_ascii_of_string.
  destruct (Ascii.eqb c ",") eqn:E.
  - apply Ascii.eqb_eq in E. subst c.
    rewrite count_occ_cons_eq by reflexivity.
    simpl. now rewrite IH.
  - apply Ascii.eqb_neq in E.
    rewrite count_occ_cons_neq by assumption. apply IH.
Qed.

(** X18. A conditional parameter with n commas gives n + 1 tokens: empty
    segments count as tokens, and the empty value gives one empty
    token. *)
Theorem token_count (params : string) :
  length (ConditionalFilter.tokens_of params)
  = S (count_occ ascii_dec (Shape.chars_of params) ","%char).
Proof.
  unfold ConditionalFilter.tokens_of, Py.split.
  rewrite length_map. apply split_comma_count.
Qed.

(** X19. Tokens that contradict each other are not detected: when the
    conditional holds a field name and the same name with the prefix '-',
    the predicate is built all the same, and under any reading in which a
    keyword cannot equal true and false on one row it holds on no row. *)
Theorem conflicting_tokens_select_nothing
  (Row : Type) (child_holds : Child -> Row -> bool)
  (tokens : list string) (q : Q) (c : ascii) (r : string) :
  (forall key row,
      child_holds (Kw key (VBool true)) row
      && child_holds (Kw key (VBool false)) row = false) ->
  ConditionalFilter.build_predicate tokens = Ok q ->
  c <> "-"%char ->
  In (String c r) tokens ->
  In (String "-" (String c r)) tokens ->
  forall row, Q_holds child_holds q row = false.
Proof.
  intros Hexcl Hb Hc Hpos Hneg row.
  destruct (in_dec string_dec "" tokens) as [Hin | Hne].
  { unfold ConditionalFilter.build_predicate in Hb.
    rewrite conditions_loop_empty_token in Hb by assumption.
    discriminate Hb. }
  destruct tokens as [|t ts]; [destruct Hpos|].
  rewrite build_predicate_tokens in Hb by assumption.
  injection Hb as <-.
  rewrite all_of_holds, forallb_over_map.
  change (forallb
            (fun tok => Q_holds child_holds (Spec.token_predicate tok) row)
            (t :: ts) = false).
  destruct (forallb _ (t :: ts)) eqn:Hall; [|reflexivity].
  rewrite forallb_forall in Hall.
  assert (Hp := Hall _ Hpos). assert (Hn := Hall _ Hneg).
  rewrite token_predicate_other in Hp by now apply Ascii.eqb_neq.
  simpl in Hp, Hn.
  specialize (Hexcl (String c r ++ "__exact") row).
  simpl in Hexcl. rewrite Hp, Hn in Hexcl. discriminate Hexcl.
Qed.

Section CustomLookup.
Context {H : Host}.
Import FieldsFilter.

(** X20. A two-segment name without a lookup prefix, whose first segment
    is a field that is not a relation and whose second segment is not a
    field but a lookup of that field, is returned unchanged: the lookup
    written in the name is the one used. *)
Theorem custom_lookup_is_kept
  (queryset : QuerySet) (c : ascii) (rest first second : string)
  (field : Field) :
  Distinct.in_prefixes c = false ->
  Py.split LOOKUP_SEP (String c rest) = [first; second] ->
  first <> "pk" ->
  second <> "pk" ->
  get_field (qs_meta queryset) first = Some field ->
  path_infos field = None ->
  get_field (qs_meta queryset) second = None ->
  get_lookup field second = true ->
  construct_search (String c rest) queryset = Ok (String c rest).
Proof.
  intros Hc Hsplit Hf Hs Hfield Hpath Hnone Hlookup.
  unfold construct_search. cbn [Py.head bind].
  rewrite (in_prefixes_get _ Hc), Hsplit.
  cbn [follow].
  apply String.eqb_neq in Hf, Hs. rewrite Hf, Hs.
  now rewrite Hfield, Hpath, Hnone, Hlookup.
Qed.

End CustomLookup.

(** ** The further properties on the sample host *)

Import SampleMore.

Lemma validation_idempotent_witness :
  ConditionalFilter.remove_invalid_fields ConditionalFilter.default_self []
    ["active"; "-verified"] flags_view flags_request
  = Ok ["active"; "-verified"].
Proof.
  exact (proj1 (@validation_idempotent Sample.host
                  ConditionalFilter.default_self []
                  ["active"; "-verified"; "bogus"] flags_view flags_request
                  ["active"; "-verified"] eq_refl)).
Defined.

Lemma string_allow_list_permits_characters_witness :
  exists vf,
    ConditionalFilter.get_valid_fields ConditionalFilter.default_self []
      string_list_view None = Ok vf
    /\ map fst vf = ["a"; "c"; "t"; "i"; "v"; "e"]
    /\ ~ In "active" (map fst vf).
Proof.
  destruct (@string_allow_list_permits_characters Sample.host
              ConditionalFilter.default_self [] string_list_view None
              "active" eq_refl ltac:(discriminate))
    as (vf & Hvf & Hnames & Hnot).
  exists vf. split; [exact Hvf|]. split; [exact Hnames|].
  apply Hnot. simpl. lia.
Defined.

Lemma default_conditional_not_validated_witness :
  ConditionalFilter.filter_queryset ConditionalFilter.default_self
    (request_of [("page", "2")]) [] default_only_view
  = Ok [Spec.field_equals "active" true].
Proof.
  refine (@default_conditional_not_validated Sample.host
            ConditionalFilter.default_self (request_of [("page", "2")]) []
            default_only_view "active" [] eq_refl eq_refl _).
  simpl. intros [E | []]. discriminate E.
Defined.

Lemma empty_default_token_raises_witness :
  ConditionalFilter.filter_queryset ConditionalFilter.default_self
    (request_of [("page", "2")]) [] empty_default_view
  = Raise IndexError.
Proof.
  exact (@empty_default_token_raises Sample.host
           ConditionalFilter.default_self (request_of [("page", "2")]) []
           empty_default_view ["active"; ""] eq_refl eq_refl
           (or_intror (or_introl eq_refl))).
Defined.

Lemma valid_fields_failures_witness :
  (exists vf,
      ConditionalFilter.get_valid_fields ConditionalFilter.default_self []
        string_list_view None = Ok vf)
  /\ ConditionalFilter.get_valid_fields ConditionalFilter.default_self []
       failing_serializer_view None
     = Raise (HostError "KeyError")
  /\ ConditionalFilter.get_valid_fields flags_self [] none_fields_view None
     = Raise (ImproperlyConfigured
                (ConditionalFilter.improperly_configured_msg "FlagsFilter")).
Proof.
  split; [|split].
  - apply (proj1 (@valid_fields_failures Sample.host
                    ConditionalFilter.default_self [] string_list_view
                    None)).
    discriminate.
  - apply (proj1 (proj2 (@valid_fields_failures Sample.host
                           ConditionalFilter.default_self []
                           failing_serializer_view None))
             (HostError "KeyError") eq_refl eq_refl).
    discriminate.
  - exact (proj2 (proj2 (@valid_fields_failures Sample.host flags_self []
                           none_fields_view None))
             eq_refl eq_refl eq_refl).
Defined.

Lemma conditional_predicate_shape_witness :
  Shape.leaves
    (QAnd (QAnd (Spec.field_equals "active" true)
                (Spec.field_equals "verified" false))
          (Spec.field_equals "active" true))
  = [ Kw "active__exact" (VBool true);
      Kw "verified__exact" (VBool false);
      Kw "active__exact" (VBool true) ].
Proof.
  exact (proj1 (@conditional_predicate_shape
                  ["active"; "-verified"; "active"] _ eq_refl)).
Defined.


Lemma valid_name_has_no_dot_witness :
  ConditionalFilter.valid_name "writer" (plain_field "author.name")
  = "author__name"
  /\ ConditionalFilter.valid_name "writer" (plain_field "") = "writer".
Proof.
  destruct (@valid_name_has_no_dot "writer" (plain_field "author.name"))
    as [Ha _].
  destruct (@valid_name_has_no_dot "writer" (plain_field "")) as [_ Hb].
  split; [exact (proj1 (Ha ltac:(discriminate))) | exact (Hb eq_refl)].
Defined.

Lemma pk_source_permitted_witness :
  exists vf,
    ConditionalFilter.get_valid_fields ConditionalFilter.default_self []
      pk_view None = Ok vf
    /\ In "pk" (map fst vf).
Proof.
  refine (@pk_source_permitted Sample.host ConditionalFilter.default_self []
            pk_view None pk_serializer "id" (plain_field "pk")
            eq_refl eq_refl (or_introl eq_refl) _ eq_refl).
  discriminate.
Defined.

Lemma construct_search_outcomes_witness :
  FieldsFilter.construct_search "author__name__iexact" []
  = Ok "author__name__iexact"
  \/ FieldsFilter.construct_search "author__name__iexact" []
     = Ok "author__name__iexact__icontains"
  \/ (FieldsFilter.construct_search "author__name__iexact" []
      = Raise IndexError
      /\ exists (o : nat) n (f : SField),
           get_field o n = Some f /\ path_infos f = Some []).
Proof.
  exact (proj2 (@construct_search_outcomes Sample.host [])
           "a"%char "uthor__name__iexact" eq_refl).
Defined.


Lemma search_fields_compose_witness :
  FieldsFilter.filter_queryset fields_request [] search_view
  = (qs <- FieldsFilter.filter_queryset fields_request []
             (fields_view ["name"]) ;;
     FieldsFilter.filter_queryset fields_request qs (fields_view ["^code"])).
Proof.
  exact (@search_fields_compose Sample.host fields_request []
           (fields_view ["name"]) (fields_view ["^code"]) search_view
           ["name"] ["^code"] eq_refl eq_refl eq_refl).
Defined.

Lemma documented_search_parameter_unread_witness :
  FieldsFilter.filter_queryset
    (Shape.with_param fields_request "search" "foo bar") [] search_view
  = FieldsFilter.filter_queryset fields_request [] search_view.
Proof.
  refine (@documented_search_parameter_unread Sample.host (fun s => s)
            search_self fields_request [] search_view ["name"; "^code"]
            "foo bar" eq_refl _ _ (or_introl eq_refl)).
  simpl. intros [E | [E | []]]; discriminate E.
Defined.

Lemma conditional_reads_documented_parameter_witness :
  ConditionalFilter.filter_queryset ConditionalFilter.default_self
    (request_of [("page", "2"); ("conditional", "active,-verified,bogus")])
    [] flags_view
  = ConditionalFilter.filter_queryset ConditionalFilter.default_self
      flags_request [] flags_view.
Proof.
  refine (@conditional_reads_documented_parameter Sample.host
            (fun s => s) "Which field to use when conditional the results."
            ConditionalFilter.default_self _ _ [] flags_view _ _).
  - discriminate.
  - intros p [<- | []]. reflexivity.
Defined.

Lemma distinct_needs_m2m_witness :
  @Distinct.must_call_distinct Sample.host plain_paths []
    ["author__name"; "^code"]
  <> Ok true.
Proof.
  apply (@distinct_needs_m2m Sample.host plain_paths).
  intros opts n f path_info Hf.
  destruct (sample_fields _ _ Hf) as [-> | [-> | ->]];
    simpl; intros [= <-]; reflexivity.
Defined.


Example distinct_through_authors :
  @Distinct.must_call_distinct Sample.host paths [] ["name"; "author__name"]
  = Ok true.
Proof. reflexivity. Qed.

Example distinct_skips_annotation :
  @Distinct.must_call_distinct Sample.host paths [] ["book_count__max"]
  = Ok false.
Proof. reflexivity. Qed.

Lemma conflicting_tokens_select_nothing_witness :
  Q_holds child_holds
    (QAnd (Spec.field_equals "active" true)
          (Spec.field_equals "active" false))
    [("active", VBool true)]
  = false.
Proof.
  refine (@conflicting_tokens_select_nothing Row child_holds
            ["active"; "-active"] _ "a"%char "ctive" _ eq_refl _
            (or_introl eq_refl) (or_intror (or_introl eq_refl))
            [("active", VBool true)]).
  - intros key row. simpl. unfold kw_holds.
    destruct (assoc row _) as [[b|s]|]; [|reflexivity..].
    destruct (String.eqb _ "exact"); [|reflexivity].
    now destruct b.
  - discriminate.
Defined.

Lemma custom_lookup_is_kept_witness :
  FieldsFilter.construct_search "name__iexact" [] = Ok "name__iexact".
Proof.
  refine (@custom_lookup_is_kept Sample.host [] "n"%char "ame__iexact"
            "name" "iexact" char_field eq_refl eq_refl _ _ eq_refl eq_refl
            eq_refl eq_refl); discriminate.
Defined.
